(** * AzureCommander: the authentication and Azure CLI execution core

    A shallow embedding of [src/services/azure-cli.service.ts]
    ([AzureCliService]) and [src/services/auth.service.ts]
    ([AuthenticationService]).

    Every process spawn goes through the injected [execAsync]; it is modelled
    by an oracle [exec] of the host that answers a command line, given the
    list of command lines spawned before it.  The state records that list
    (so the number of spawns is observable) and the two cache slots of the
    authentication service.  Thrown values are an inductive type [jserr];
    a computation returns [Ok] or [Throw]. *)

From Stdlib Require Import String Ascii List Bool ZArith PrimFloat Lia.
Import ListNotations.
Open Scope string_scope.
Set Warnings "-register-all".

(** ** JavaScript strings *)

(** Characters removed by [String.prototype.trim] (WhiteSpace and
    LineTerminator) that fit in a single 8-bit code unit: TAB, LF, VT, FF,
    CR, SPACE and NO-BREAK SPACE. *)
Definition is_js_ws (c : ascii) : bool :=
  match nat_of_ascii c with
  | 9 | 10 | 11 | 12 | 13 | 32 | 160 => true
  | _ => false
  end.

Fixpoint drop_ws (l : list ascii) : list ascii :=
  match l with
  | [] => []
  | c :: r => if is_js_ws c then drop_ws r else l
  end.

(** [s.trim()] *)
Definition trim (s : string) : string :=
  string_of_list_ascii (rev (drop_ws (rev (drop_ws (list_ascii_of_string s))))).

(** [s.includes(needle)] *)
Fixpoint includes (s needle : string) : bool :=
  if String.prefix needle s then true
  else match s with
       | EmptyString => false
       | String _ r => includes r needle
       end.

(** JavaScript truthiness of a string: only [""] is falsy. *)
Definition str_truthy (s : string) : bool :=
  match s with EmptyString => false | _ => true end.

(** [a || b] on strings. *)
Definition str_or (a b : string) : string := if str_truthy a then a else b.

(** GetSubstitution for a pattern without capture groups: [$$], [$&],
    [$`] and [$'] are expanded, every other [$] is kept literally. *)
Fixpoint expand_replacement (repl matched before after : string) : string :=
  match repl with
  | EmptyString => EmptyString
  | String c r =>
      if Ascii.eqb c "$"%char then
        match r with
        | String d r' =>
            if Ascii.eqb d "$"%char then
              String "$"%char (expand_replacement r' matched before after)
            else if Ascii.eqb d "&"%char then
              matched ++ expand_replacement r' matched before after
            else if Ascii.eqb d "`"%char then
              before ++ expand_replacement r' matched before after
            else if Ascii.eqb d "'"%char then
              after ++ expand_replacement r' matched before after
            else String c (expand_replacement r matched before after)
        | EmptyString => String c EmptyString
        end
      else String c (expand_replacement r matched before after)
  end.

(** Scan of [orig] for [/@me/g]: [pos] is the index of [s] in [orig],
    [skip] the number of characters of the last match still to pass. *)
Fixpoint replace_at_me_from (orig repl : string) (pos skip : nat) (s : string)
  : string :=
  match s with
  | EmptyString => EmptyString
  | String c r =>
      match skip with
      | S k => replace_at_me_from orig repl (S pos) k r
      | O =>
          if String.prefix "@me" s then
            expand_replacement repl "@me" (substring 0 pos orig)
              (substring (pos + 3) (String.length orig - (pos + 3)) orig)
            ++ replace_at_me_from orig repl (S pos) 2 r
          else String c (replace_at_me_from orig repl (S pos) 0 r)
      end
  end.

(** [command.replace(/@me/g, username)] *)
Definition replace_at_me (command username : string) : string :=
  replace_at_me_from command username 0 0 command.

(** ** JavaScript values produced by [JSON.parse] *)

Inductive jsval : Type :=
| JUndefined
| JNull
| JBool (b : bool)
| JNum (n : float)
| JStr (s : string)
| JArr (elems : list jsval)
| JObj (fields : list (string * jsval)).

(** Property read [o.k]: the last binding of a key wins, as in
    [JSON.parse]; non-objects have none of the keys read here. *)
Definition get (v : jsval) (k : string) : jsval :=
  match v with
  | JObj fs =>
      match find (fun kv => String.eqb (fst kv) k) (rev fs) with
      | Some (_, x) => x
      | None => JUndefined
      end
  | _ => JUndefined
  end.

Definition truthy (v : jsval) : bool :=
  match v with
  | JUndefined | JNull => false
  | JBool b => b
  | JNum n => negb (PrimFloat.is_zero n || PrimFloat.is_nan n)
  | JStr s => str_truthy s
  | JArr _ | JObj _ => true
  end.

(** [a || b] *)
Definition js_or (a b : jsval) : jsval := if truthy a then a else b.

(** [typeof v === 'object'] *)
Definition is_object (v : jsval) : bool :=
  match v with JNull | JArr _ | JObj _ => true | _ => false end.

Fixpoint join_comma (l : list string) : string :=
  match l with
  | [] => ""
  | [x] => x
  | x :: r => x ++ "," ++ join_comma r
  end.

(** ** Thrown values *)

(** The rejection value of [execAsync] ([promisify(exec)]): an [Error]
    carrying [stderr] and [code]; an absent [stderr] is read as [""]
    (it is only ever used through [||]). *)
Record proc_error : Type := {
  pe_stderr : string;
  pe_message : string;
  pe_code : jsval
}.

Inductive jserr : Type :=
| AzureCliNotInstalledError
| AzureCliNotAuthenticatedError
| AzureDevOpsExtensionNotInstalledError
| AzureDevOpsNotConfiguredError
| AzureCliExecutionError (message stderr : string) (exitCode : jsval)
| ProcessError (e : proc_error)
| SyntaxError (message : string)
| TypeError (message : string)
| PlainError (message : string) (cause : option jserr).

Definition err_message (e : jserr) : string :=
  match e with
  | AzureCliNotInstalledError =>
      "Azure CLI is not installed. Install from: https://aka.ms/install-azure-cli"
  | AzureCliNotAuthenticatedError =>
      "Not authenticated with Azure CLI. Run: az login"
  | AzureDevOpsExtensionNotInstalledError =>
      "Azure DevOps extension not installed. Run: az extension add --name azure-devops"
  | AzureDevOpsNotConfiguredError =>
      "Azure DevOps organization not configured. Run: az devops configure --defaults organization=https://dev.azure.com/YOUR_ORG"
  | AzureCliExecutionError m _ _ => m
  | ProcessError pe => pe_message pe
  | SyntaxError m => m
  | TypeError m => m
  | PlainError m _ => m
  end.

(** [error.stderr], [""] where the property is absent. *)
Definition err_stderr (e : jserr) : string :=
  match e with
  | AzureCliExecutionError _ st _ => st
  | ProcessError pe => pe_stderr pe
  | _ => ""
  end.

(** [error.code]; [AzureCliExecutionError] stores its code as [exitCode]. *)
Definition err_code (e : jserr) : jsval :=
  match e with
  | ProcessError pe => pe_code pe
  | _ => JUndefined
  end.

(** ** The host: environment, external program, username source *)

Inductive exec_outcome : Type :=
| Resolved (stdout stderr : string)
| Rejected (e : proc_error).

Record SubscriptionInfo : Type := {
  sub_id : string;
  sub_name : string;
  sub_tenantId : string;
  sub_state : string
}.

Record Host : Type := {
  (** [process.env] *)
  env : string -> option string;
  (** the external program: answer to a command line, given the command
      lines spawned before it *)
  exec : list string -> string -> exec_outcome;
  (** what [ensureConfiguredUsername] yields: the username of
      [~/.azc/config.json], the prompted answer, or the fallback ["@me"];
      it does file and terminal I/O only and never throws *)
  configuredUsername : string
}.

Record State : Type := {
  spawned : list string;
  cachedToken : option string;
  cachedSubscription : option SubscriptionInfo
}.

Definition set_spawned (s : State) (l : list string) : State :=
  {| spawned := l; cachedToken := cachedToken s;
     cachedSubscription := cachedSubscription s |}.
Definition set_cachedToken (s : State) (t : option string) : State :=
  {| spawned := spawned s; cachedToken := t;
     cachedSubscription := cachedSubscription s |}.
Definition set_cachedSubscription (s : State) (i : option SubscriptionInfo) : State :=
  {| spawned := spawned s; cachedToken := cachedToken s;
     cachedSubscription := i |}.

(** ** A reader, state and exception monad *)

Inductive result (A : Type) : Type :=
| Ok (a : A)
| Throw (e : jserr).
Arguments Ok {A} a.
Arguments Throw {A} e.

Definition M (A : Type) : Type := Host -> State -> result A * State.

Definition ret {A} (a : A) : M A := fun _ s => (Ok a, s).
Definition throw {A} (e : jserr) : M A := fun _ s => (Throw e, s).
Definition bind {A B} (m : M A) (k : A -> M B) : M B :=
  fun h s => match m h s with
             | (Ok a, s') => k a h s'
             | (Throw e, s') => (Throw e, s')
             end.
(** [try { m } catch (e) { handler(e) }] *)
Definition catch {A} (m : M A) (handler : jserr -> M A) : M A :=
  fun h s => match m h s with
             | (Ok a, s') => (Ok a, s')
             | (Throw e, s') => handler e h s'
             end.
Definition get_state : M State := fun _ s => (Ok s, s).
Definition put_state (s : State) : M unit := fun _ _ => (Ok tt, s).
Definition ask : M Host := fun h s => (Ok h, s).

Notation "x <- m ;; k" := (bind m (fun x => k))
  (at level 61, m at next level, right associativity).
Notation "m ;; k" := (bind m (fun _ => k))
  (at level 61, right associativity).

Section Runtime.

(** [JSON.parse]: the parsed value, or the message of the [SyntaxError]
    it throws. *)
Variable json_parse : string -> jsval + string.
(** [Number.prototype.toString] *)
Variable number_toString : float -> string.

(** [String(v)] on parsed JSON.  An array joins its elements with
    commas ([null] and [undefined] as [""]).  An object with an own
    ["toString"] key has no callable [toString] (parsed JSON holds no
    functions), and [valueOf], own and not callable or inherited and
    returning the object itself, gives no primitive either: [String]
    throws a [TypeError].  Other objects print as ["[object Object]"]. *)
Fixpoint js_String (v : jsval) : result string :=
  match v with
  | JUndefined => Ok "undefined"
  | JNull => Ok "null"
  | JBool true => Ok "true"
  | JBool false => Ok "false"
  | JNum n => Ok (number_toString n)
  | JStr s => Ok s
  | JArr l =>
      match
        (fix elems (l : list jsval) : result (list string) :=
           match l with
           | [] => Ok []
           | x :: r =>
               match match x with
                     | JUndefined | JNull => Ok ""
                     | _ => js_String x
                     end with
               | Throw e => Throw e
               | Ok a =>
                   match elems r with
                   | Ok rest => Ok (a :: rest)
                   | Throw e => Throw e
                   end
               end
           end) l
      with
      | Ok parts => Ok (join_comma parts)
      | Throw e => Throw e
      end
  | JObj fields =>
      if existsb (fun kv => String.eqb (fst kv) "toString") fields
      then Throw (TypeError "Cannot convert object to primitive value")
      else Ok "[object Object]"
  end.

(** A value computed without effects, or its exception, in the monad. *)
Definition of_result {A} (r : result A) : M A :=
  fun _ s => (r, s).

Definition JSON_parse (text : string) : M jsval :=
  match json_parse text with
  | inl v => ret v
  | inr m => throw (SyntaxError m)
  end.

(** ** [AzureCliService] *)

(** [this.execAsync(cmd)]: one spawn of the external program. *)
Definition execAsync (cmd : string) : M (string * string) :=
  fun h s =>
    let s' := set_spawned s (spawned s ++ [cmd]) in
    match exec h (spawned s) cmd with
    | Resolved out err => (Ok (out, err), s')
    | Rejected pe => (Throw (ProcessError pe), s')
    end.

Definition isInstalled : M bool :=
  catch (execAsync "az --version";; ret true) (fun _ => ret false).

Definition isAuthenticated : M bool :=
  catch (execAsync "az account show";; ret true) (fun _ => ret false).

(** [extensions.some((ext) => ext.name === 'azure-devops')] *)
Definition extensionsIncludeAzureDevOps (extensions : jsval) : M bool :=
  match extensions with
  | JArr l =>
      (fix some (l : list jsval) : M bool :=
         match l with
         | [] => ret false
         | x :: r =>
             match x with
             | JUndefined | JNull =>
                 throw (TypeError "Cannot read properties of null (reading 'name')")
             | _ =>
                 match get x "name" with
                 | JStr n => if String.eqb n "azure-devops" then ret true else some r
                 | _ => some r
                 end
             end
         end) l
  | _ => throw (TypeError "extensions.some is not a function")
  end.

Definition hasDevOpsExtension : M bool :=
  catch (r <- execAsync "az extension list --output json";;
         extensions <- JSON_parse (fst r);;
         extensionsIncludeAzureDevOps extensions)
        (fun _ => ret false).

Definition validateAzureCliIsInstalled : M unit :=
  installed <- isInstalled;;
  if installed then ret tt else throw AzureCliNotInstalledError.

Definition validateUserIsAuthenticated : M unit :=
  authenticated <- isAuthenticated;;
  if authenticated then ret tt else throw AzureCliNotAuthenticatedError.

Definition isDevOpsCommand (command : string) : bool :=
  includes command "az repos" || includes command "az devops".

Definition validateDevOpsExtensionForDevOpsCommands (command : string) : M unit :=
  if isDevOpsCommand command then
    present <- hasDevOpsExtension;;
    if present then ret tt else throw AzureDevOpsExtensionNotInstalledError
  else ret tt.

Definition ensureConfiguredUsername : M string :=
  h <- ask;; ret (configuredUsername h).

Definition isOrganizationNotConfiguredError (stderr : string) : bool :=
  includes stderr "organization" && includes stderr "not configured".

Definition isResourceNotFoundError (stderr : string) : bool :=
  includes stderr "not found" || includes stderr "does not exist".

Definition handleStderrErrors (stderr : string) : M unit :=
  if negb (str_truthy stderr) then ret tt
  else if isOrganizationNotConfiguredError stderr then
    throw AzureDevOpsNotConfiguredError
  else if isResourceNotFoundError stderr then
    throw (AzureCliExecutionError "Resource not found" stderr JUndefined)
  else ret tt.

Definition parseJsonResponse (stdout : string) : M jsval :=
  if str_truthy (trim stdout) then JSON_parse stdout else ret (JObj []).

Definition isKnownError (error : jserr) : bool :=
  match error with
  | AzureCliNotInstalledError | AzureCliNotAuthenticatedError
  | AzureDevOpsExtensionNotInstalledError | AzureDevOpsNotConfiguredError
  | AzureCliExecutionError _ _ _ => true
  | _ => false
  end.

Definition handleExecutionError {A} (error : jserr) : M A :=
  if isKnownError error then throw error
  else
    let stderr := str_or (str_or (err_stderr error) (err_message error)) "Unknown error" in
    throw (AzureCliExecutionError ("Azure CLI command failed: " ++ err_message error)
             stderr (err_code error)).

Definition atMeFailure : string := "Could not resolve identity: @me".

(** The try block of [executeAzCommand], written twice in the source
    (for [command] and for the rewritten [newCommand]):
    [const { stdout, stderr } = await this.execAsync(cmd);
     this.handleStderrErrors(stderr); return this.parseJsonResponse(stdout);] *)
Definition executeOnce (cmd : string) : M jsval :=
  r <- execAsync cmd;;
  handleStderrErrors (snd r);;
  parseJsonResponse (fst r).

(** [(error.stderr || error.message || '').toString()] *)
Definition errorText (error : jserr) : string :=
  str_or (str_or (err_stderr error) (err_message error)) "".

Definition executeAzCommand (command : string) : M jsval :=
  validateAzureCliIsInstalled;;
  validateUserIsAuthenticated;;
  validateDevOpsExtensionForDevOpsCommands command;;
  catch (executeOnce command)
        (fun error =>
           let stderr := errorText error in
           if includes stderr atMeFailure then
             username <- ensureConfiguredUsername;;
             let newCommand := replace_at_me command username in
             catch (executeOnce newCommand) handleExecutionError
           else handleExecutionError error).

Definition accessTokenCommand : string :=
  "az account get-access-token --resource 499b84ac-1321-427f-aa17-267ca6975798 --query accessToken --output tsv".

Definition handleAccessTokenError {A} (error : jserr) : M A :=
  installed <- isInstalled;;
  if negb installed then throw AzureCliNotInstalledError else
  authenticated <- isAuthenticated;;
  if negb authenticated then throw AzureCliNotAuthenticatedError else
  throw (AzureCliExecutionError "Failed to get access token"
           (str_or (err_stderr error) (err_message error)) JUndefined).

Definition getAzureDevOpsAccessToken : M string :=
  catch (r <- execAsync accessTokenCommand;; ret (trim (fst r)))
        handleAccessTokenError.

(** ** [AuthenticationService] *)

Inductive TokenSource : Type :=
| AzureCli
| EnvironmentPat
| EnvironmentToken.

Record AuthenticationContext : Type := {
  ctx_accessToken : string;
  ctx_subscription : option SubscriptionInfo;
  ctx_source : TokenSource
}.

Definition primaryEnvVar : string := "AZURE_DEVOPS_EXT_PAT".
Definition secondaryEnvVar : string := "AZ_ACCESS_TOKEN".

Definition getEnvVar (name : string) : M (option string) :=
  h <- ask;;
  match env h name with
  | None => ret None
  | Some v =>
      if negb (str_truthy v) then ret None
      else let trimmed := trim v in
           if String.eqb trimmed "" then ret None else ret (Some trimmed)
  end.

Definition setCachedToken (t : option string) : M unit :=
  s <- get_state;; put_state (set_cachedToken s t).

Definition tokenFailureMessage : string :=
  "Failed to retrieve access token. Make sure one of the following is available: AZURE_DEVOPS_EXT_PAT, AZ_ACCESS_TOKEN, or Azure CLI login.".

Definition emptyTokenMessage : string := "Empty token from Azure CLI".

(** The body of [getAccessToken] after a cache miss. *)
Definition resolveAccessToken : M string :=
  pat <- getEnvVar primaryEnvVar;;
  match pat with
  | Some p => setCachedToken (Some p);; ret p
  | None =>
      envToken <- getEnvVar secondaryEnvVar;;
      match envToken with
      | Some t => setCachedToken (Some t);; ret t
      | None =>
          catch (token <- getAzureDevOpsAccessToken;;
                 if negb (str_truthy token) || negb (str_truthy (trim token)) then
                   throw (PlainError emptyTokenMessage None)
                 else
                   setCachedToken (Some (trim token));;
                   ret (trim token))
                (fun err => throw (PlainError tokenFailureMessage (Some err)))
      end
  end.

Definition getAccessToken : M string :=
  s <- get_state;;
  match cachedToken s with
  | Some t => if str_truthy t then ret t else resolveAccessToken
  | None => resolveAccessToken
  end.

Definition subscriptionCommand : string := "az account show --output json".

Definition getSubscriptionInfo : M (option SubscriptionInfo) :=
  s <- get_state;;
  match cachedSubscription s with
  | Some info => ret (Some info)
  | None =>
      catch
        (installed <- isInstalled;;
         if negb installed then ret None else
         authenticated <- isAuthenticated;;
         if negb authenticated then ret None else
         result <- executeAzCommand subscriptionCommand;;
         if negb (truthy result) || negb (is_object result) then ret None else
         let id := get result "id" in
         let name := get result "name" in
         let tenantId := js_or (get result "tenantId") (get result "homeTenantId") in
         let state := js_or (get result "state") (JStr "Unknown") in
         if negb (truthy id) || negb (truthy name) then ret None else
         sid <- of_result (js_String id);;
         sname <- of_result (js_String name);;
         stenant <- of_result (js_String (js_or tenantId (JStr "")));;
         sstate <- of_result (js_String state);;
         let info := {| sub_id := sid; sub_name := sname;
                        sub_tenantId := stenant; sub_state := sstate |} in
         s' <- get_state;;
         put_state (set_cachedSubscription s' (Some info));;
         ret (Some info))
        (fun _ => ret None)
  end.

Definition getAuthenticationContext : M AuthenticationContext :=
  token <- getAccessToken;;
  pat <- getEnvVar primaryEnvVar;;
  envToken <- getEnvVar secondaryEnvVar;;
  let source := match pat, envToken with
                | Some _, _ => EnvironmentPat
                | None, Some _ => EnvironmentToken
                | None, None => AzureCli
                end in
  match source with
  | AzureCli =>
      subscription <- getSubscriptionInfo;;
      ret {| ctx_accessToken := token; ctx_subscription := subscription;
             ctx_source := source |}
  | _ => ret {| ctx_accessToken := token; ctx_subscription := None;
                ctx_source := source |}
  end.

Definition clearCache : M unit :=
  s <- get_state;;
  put_state {| spawned := spawned s; cachedToken := None;
               cachedSubscription := None |}.

(** ** [MyPRsService], a caller of [executeAzCommand]

    The PR listing service; its [console.error] logging is not modelled.
    PR data is whatever [JSON.parse] returned, read through [get]. *)

(** The options of [fetchMyPRs], as the command line hands them over. *)
Record MyPRsOptions : Type := {
  opt_status : string;
  opt_repo : option string;
  opt_project : option string;
  opt_top : float
}.

Record PullRequestFilters : Type := {
  flt_status : string;
  flt_repositoryId : option string;
  flt_project : option string;
  flt_top : float
}.

(** [if (x) { filters.k = x; }] for an optional string. *)
Definition keep_truthy (o : option string) : option string :=
  match o with
  | Some p => if str_truthy p then Some p else None
  | None => None
  end.

Definition buildFilters (options : MyPRsOptions) : PullRequestFilters :=
  {| flt_status := opt_status options;
     flt_top := opt_top options;
     flt_project := keep_truthy (opt_project options);
     flt_repositoryId := keep_truthy (opt_repo options) |}.

(** The double quote character. *)
Definition dq : string := String (ascii_of_nat 34) EmptyString.

(** [args.join(' ')] *)
Fixpoint join_space (l : list string) : string :=
  match l with
  | [] => ""
  | [x] => x
  | x :: r => x ++ " " ++ join_space r
  end.

Definition buildFilterArgs (filters : PullRequestFilters) : string :=
  let status := flt_status filters in
  let args1 :=
    if str_truthy status && negb (String.eqb status "all")
    then ["--status " ++ status] else [] in
  let args2 :=
    match flt_project filters with
    | Some p => if str_truthy p then app args1 ["--project " ++ dq ++ p ++ dq] else args1
    | None => args1
    end in
  let args3 :=
    match flt_repositoryId filters with
    | Some r => if str_truthy r then app args2 ["--repository " ++ dq ++ r ++ dq] else args2
    | None => args2
    end in
  let args4 :=
    if truthy (JNum (flt_top filters))
    then app args3 ["--top " ++ number_toString (flt_top filters)] else args3 in
  join_space args4.

Definition buildCreatedPRsCommand (filterArgs : string) : string :=
  "az repos pr list --creator @me " ++ filterArgs ++ " --output json".

Definition buildAllPRsCommand (filterArgs : string) : string :=
  "az repos pr list " ++ filterArgs ++ " --output json".

Definition fetchMyCreatedPRs (options : MyPRsOptions) : M jsval :=
  let command := buildCreatedPRsCommand (buildFilterArgs (buildFilters options)) in
  catch (prs <- executeAzCommand command;; ret (js_or prs (JArr [])))
        (fun _ => ret (JArr [])).

(** [a === b] on parsed JSON: two distinct nodes of parsed JSON are never
    the same object. *)
Definition strict_equals (a b : jsval) : bool :=
  match a, b with
  | JUndefined, JUndefined | JNull, JNull => true
  | JBool x, JBool y => Bool.eqb x y
  | JNum x, JNum y => PrimFloat.eqb x y
  | JStr x, JStr y => String.eqb x y
  | _, _ => false
  end.

(** SameValueZero, the key equality of a [Map]: [NaN] equals itself. *)
Definition same_value_zero (a b : jsval) : bool :=
  match a, b with
  | JNum x, JNum y => (PrimFloat.is_nan x && PrimFloat.is_nan y) || PrimFloat.eqb x y
  | _, _ => strict_equals a b
  end.

(** The callback of [pr.reviewers.some(...)]: [reviewer.id === userId]
    on each reviewer in turn. *)
Fixpoint reviewers_some (reviewers : list jsval) (userId : jsval) : result bool :=
  match reviewers with
  | [] => Ok false
  | r :: rest =>
      match r with
      | JUndefined | JNull => Throw (TypeError "Cannot read properties of null (reading 'id')")
      | _ => if strict_equals (get r "id") userId then Ok true else reviewers_some rest userId
      end
  end.

(** [pr.reviewers.some((reviewer) => reviewer.id === userId)] *)
Definition userIsReviewer (pr userId : jsval) : result bool :=
  match pr with
  | JUndefined | JNull => Throw (TypeError "Cannot read properties of null (reading 'reviewers')")
  | _ =>
      match get pr "reviewers" with
      | JArr rs => reviewers_some rs userId
      | _ => Throw (TypeError "pr.reviewers.some is not a function")
      end
  end.

(** The loop of [allPrs.filter(...)] over the array's elements. *)
Fixpoint filter_reviewed (prs : list jsval) (userId : jsval) : result (list jsval) :=
  match prs with
  | [] => Ok []
  | pr :: r =>
      match userIsReviewer pr userId with
      | Throw e => Throw e
      | Ok b =>
          match filter_reviewed r userId with
          | Throw e => Throw e
          | Ok rest => Ok (if b then pr :: rest else rest)
          end
      end
  end.

(** [allPrs.filter((pr) => this.userIsReviewer(pr, userId))] *)
Definition filterPRsByReviewer (allPrs userId : jsval) : result jsval :=
  match allPrs with
  | JArr l =>
      match filter_reviewed l userId with
      | Ok kept => Ok (JArr kept)
      | Throw e => Throw e
      end
  | _ => Throw (TypeError "allPrs.filter is not a function")
  end.

(** [allPrs.length === 0], read only when [allPrs] is truthy. *)
Definition length_is_zero (v : jsval) : bool :=
  match v with
  | JArr [] => true
  | JStr EmptyString => true
  | JObj _ =>
      match get v "length" with
      | JNum n => PrimFloat.eqb n 0%float
      | _ => false
      end
  | _ => false
  end.

Definition currentUserCommand : string :=
  "az ad signed-in-user show --query id --output json".

Definition getCurrentUserId : M jsval := executeAzCommand currentUserCommand.

Definition fetchMyReviewPRs (options : MyPRsOptions) : M jsval :=
  let command := buildAllPRsCommand (buildFilterArgs (buildFilters options)) in
  catch (allPrs <- executeAzCommand command;;
         if negb (truthy allPrs) || length_is_zero allPrs then ret (JArr []) else
         userId <- getCurrentUserId;;
         match filterPRsByReviewer allPrs userId with
         | Ok kept => ret kept
         | Throw e => throw e
         end)
        (fun _ => ret (JArr [])).

Definition pr_key (pr : jsval) : jsval := get pr "pullRequestId".

(** [for (const x of v)]: arrays yield their elements, strings their
    characters; other values are not iterable. *)
Definition js_iter (v : jsval) : option (list jsval) :=
  match v with
  | JArr l => Some l
  | JStr s => Some (map (fun c => JStr (String c EmptyString)) (list_ascii_of_string s))
  | _ => None
  end.

(** The inner loop of [deduplicatePRs] over one list; the [Map] is the
    list of its entries in insertion order. *)
Fixpoint dedup_list (prMap : list (jsval * jsval)) (prList : list jsval)
  : result (list (jsval * jsval)) :=
  match prList with
  | [] => Ok prMap
  | pr :: r =>
      match pr with
      | JUndefined | JNull =>
          Throw (TypeError "Cannot read properties of null (reading 'pullRequestId')")
      | _ =>
          if existsb (fun kv => same_value_zero (fst kv) (pr_key pr)) prMap
          then dedup_list prMap r
          else dedup_list (app prMap [(pr_key pr, pr)]) r
      end
  end.

Fixpoint dedup_lists (prMap : list (jsval * jsval)) (prLists : list jsval)
  : result (list (jsval * jsval)) :=
  match prLists with
  | [] => Ok prMap
  | v :: rest =>
      match js_iter v with
      | None => Throw (TypeError "prList is not iterable")
      | Some l =>
          match dedup_list prMap l with
          | Ok m => dedup_lists m rest
          | Throw e => Throw e
          end
      end
  end.

Definition deduplicatePRs (prLists : list jsval) : result jsval :=
  match dedup_lists [] prLists with
  | Ok m => Ok (JArr (map snd m))
  | Throw e => Throw e
  end.

(** No element is [null] or [undefined]. *)
Definition no_missing (l : list jsval) : bool :=
  forallb (fun p => match p with JUndefined | JNull => false | _ => true end) l.

(** No two elements have SameValueZero-equal [pullRequestId]s. *)
Fixpoint keys_distinct (l : list jsval) : bool :=
  match l with
  | [] => true
  | p :: r =>
      forallb (fun q => negb (same_value_zero (pr_key p) (pr_key q))) r && keys_distinct r
  end.

(** A computation that changes nothing but the spawn log, which it only
    extends. *)
Definition only_spawns {A} (m : M A) : Prop :=
  forall h s, exists l, snd (m h s) = set_spawned s (spawned s ++ l).

(** ** Properties of the credential resolver *)

(** The variable [name] is unset, empty or whitespace-only. *)
Definition env_blank (h : Host) (name : string) : Prop :=
  match env h name with
  | None => True
  | Some v => trim v = ""
  end.

(** A usable token: non-empty, with no leading or trailing whitespace. *)
Definition token_ok (t : string) : Prop := t <> "" /\ trim t = t.

Definition cache_ok (s : State) : Prop :=
  match cachedToken s with
  | None => True
  | Some t => token_ok t
  end.

(** States reachable from a fresh service through its public operations
    (and direct calls of the Azure CLI service it holds). *)
Inductive reachable (h : Host) : State -> Prop :=
| reach_init (l : list string) :
    reachable h {| spawned := l; cachedToken := None; cachedSubscription := None |}
| reach_getAccessToken s : reachable h s -> reachable h (snd (getAccessToken h s))
| reach_getSubscriptionInfo s :
    reachable h s -> reachable h (snd (getSubscriptionInfo h s))
| reach_getAuthenticationContext s :
    reachable h s -> reachable h (snd (getAuthenticationContext h s))
| reach_clearCache s : reachable h s -> reachable h (snd (clearCache h s))
| reach_executeAzCommand c s :
    reachable h s -> reachable h (snd (executeAzCommand c h s))
| reach_getAzureDevOpsAccessToken s :
    reachable h s -> reachable h (snd (getAzureDevOpsAccessToken h s)).

(** A computation that leaves the token cache slot as it finds it. *)
Definition keeps_token {A} (m : M A) : Prop :=
  forall h s, cachedToken (snd (m h s)) = cachedToken s.

(** ** Basic facts about the monad and the state *)

Lemma spawned_set_spawned (s : State) (l : list string) :
  spawned (set_spawned s l) = l.
Proof. reflexivity. Qed.

Lemma set_spawned_twice (s : State) (l1 l2 : list string) :
  set_spawned (set_spawned s l1) l2 = set_spawned s l2.
Proof. reflexivity. Qed.

Lemma set_spawned_same (s : State) : set_spawned s (spawned s) = s.
Proof. destruct s; reflexivity. Qed.

(** [handleStderrErrors], [parseJsonResponse] and [handleExecutionError]
    spawn nothing and touch no cache. *)
Lemma handleStderrErrors_state (stderr : string) h s :
  snd (handleStderrErrors stderr h s) = s.
Proof.
  unfold handleStderrErrors.
  destruct (negb (str_truthy stderr)); [reflexivity|].
  destruct (isOrganizationNotConfiguredError stderr); [reflexivity|].
  destruct (isResourceNotFoundError stderr); reflexivity.
Qed.

Lemma parseJsonResponse_state (stdout : string) h s :
  snd (parseJsonResponse stdout h s) = s.
Proof.
  unfold parseJsonResponse, JSON_parse.
  destruct (str_truthy (trim stdout)); [|reflexivity].
  destruct (json_parse stdout); reflexivity.
Qed.

Lemma handleExecutionError_state {A} (e : jserr) h s :
  snd (@handleExecutionError A e h s) = s.
Proof. unfold handleExecutionError. destruct (isKnownError e); reflexivity. Qed.

Ltac monad_simpl :=
  cbv beta iota delta [bind catch ret throw get_state put_state ask of_result] in *.

(** ** C8: blank stdout of a successful run is the empty object *)

(** C8.  After the install, authentication and extension checks pass, a
    command that exits successfully with a [stderr] that names no known
    failure yields the parsed [stdout]: the empty object [{}] when [stdout]
    is empty or whitespace-only, and [JSON.parse(stdout)] otherwise. *)
Theorem executeAzCommand_parses_stdout h s s1 s2 s3 command stdout stderr :
  validateAzureCliIsInstalled h s = (Ok tt, s1) ->
  validateUserIsAuthenticated h s1 = (Ok tt, s2) ->
  validateDevOpsExtensionForDevOpsCommands command h s2 = (Ok tt, s3) ->
  exec h (spawned s3) command = Resolved stdout stderr ->
  isOrganizationNotConfiguredError stderr = false ->
  isResourceNotFoundError stderr = false ->
  (trim stdout = "" -> fst (executeAzCommand command h s) = Ok (JObj [])) /\
  (forall v, trim stdout <> "" -> json_parse stdout = inl v ->
             fst (executeAzCommand command h s) = Ok v).
Proof.
  intros H1 H2 H3 Hexec Horg Hnf.
  unfold executeAzCommand. monad_simpl.
  rewrite H1, H2, H3.
  unfold executeOnce, execAsync. monad_simpl.
  rewrite Hexec. simpl.
  unfold handleStderrErrors. rewrite Horg, Hnf.
  destruct (negb (str_truthy stderr)); simpl;
  unfold parseJsonResponse, JSON_parse;
  (split; [intros Hb; rewrite Hb; reflexivity
          |intros v Hb Hp; destruct (trim stdout) as [|c r];
           [congruence| simpl; rewrite Hp; reflexivity]]).
Qed.

(** ** C1: the organization-not-configured check *)

Lemma includes_nonempty (s needle : string) :
  needle <> "" -> includes s needle = true -> str_truthy s = true.
Proof.
  intros Hn Hi. destruct s as [|c r]; [|reflexivity].
  destruct needle; [congruence|]. discriminate Hi.
Qed.

Lemma str_or_truthy (a b : string) : str_truthy a = true -> str_or a b = a.
Proof. unfold str_or. intros ->. reflexivity. Qed.

(** C1 (as amended).  The [stderr] phrase check runs on the success path
    only.  When the command resolves and its [stderr] contains both
    "organization" and "not configured", the run fails with
    [AzureDevOpsNotConfiguredError].  When the command rejects (non-zero
    exit) with such a [stderr] that does not contain the "@me" identity
    failure text, the run fails with a generic [AzureCliExecutionError]
    carrying the original message, the raw [stderr] and the exit code. *)
Theorem executeAzCommand_not_configured h s s1 s2 s3 command :
  validateAzureCliIsInstalled h s = (Ok tt, s1) ->
  validateUserIsAuthenticated h s1 = (Ok tt, s2) ->
  validateDevOpsExtensionForDevOpsCommands command h s2 = (Ok tt, s3) ->
  (forall stdout stderr,
     exec h (spawned s3) command = Resolved stdout stderr ->
     isOrganizationNotConfiguredError stderr = true ->
     fst (executeAzCommand command h s) = Throw AzureDevOpsNotConfiguredError) /\
  (forall pe,
     exec h (spawned s3) command = Rejected pe ->
     isOrganizationNotConfiguredError (pe_stderr pe) = true ->
     includes (pe_stderr pe) atMeFailure = false ->
     fst (executeAzCommand command h s) =
       Throw (AzureCliExecutionError ("Azure CLI command failed: " ++ pe_message pe)
                (pe_stderr pe) (pe_code pe))).
Proof.
  intros H1 H2 H3.
  unfold executeAzCommand. monad_simpl.
  rewrite H1, H2, H3.
  unfold executeOnce, execAsync. monad_simpl.
  split.
  - intros stdout stderr Hexec Horg.
    rewrite Hexec. simpl.
    assert (Ht : str_truthy stderr = true).
    { unfold isOrganizationNotConfiguredError in Horg.
      apply andb_prop in Horg. destruct Horg as [Hi _].
      apply (includes_nonempty _ "organization"); [discriminate|exact Hi]. }
    unfold handleStderrErrors. rewrite Ht, Horg. simpl.
    reflexivity.
  - intros pe Hexec Horg Hme.
    rewrite Hexec. simpl.
    assert (Ht : str_truthy (pe_stderr pe) = true).
    { unfold isOrganizationNotConfiguredError in Horg.
      apply andb_prop in Horg. destruct Horg as [Hi _].
      apply (includes_nonempty _ "organization"); [discriminate|exact Hi]. }
    unfold errorText, err_stderr, err_message.
    rewrite (str_or_truthy _ _ Ht), (str_or_truthy _ _ Ht), Hme.
    unfold handleExecutionError. simpl.
    unfold err_stderr, err_message, err_code.
    rewrite (str_or_truthy _ _ Ht), (str_or_truthy _ _ Ht).
    reflexivity.
Qed.

(** ** C2: spawns of [executeAzCommand] and [getAzureDevOpsAccessToken] *)

Lemma executeOnce_spawned (cmd : string) h s :
  spawned (snd (executeOnce cmd h s)) = (spawned s ++ [cmd])%list.
Proof.
  unfold executeOnce, execAsync. monad_simpl.
  destruct (exec h (spawned s) cmd) as [out err|pe]; simpl; [|reflexivity].
  pose proof (handleStderrErrors_state err h (set_spawned s (spawned s ++ [cmd]))) as Hs.
  destruct (handleStderrErrors err h _) as [[u|e] s'] eqn:E; simpl in Hs; subst s'.
  - rewrite parseJsonResponse_state. reflexivity.
  - reflexivity.
Qed.

(** C2 (as amended).  No generic retry.  Once its checks have passed,
    [executeAzCommand] spawns the command line once, and spawns one more
    command line, the command with every "@me" replaced by the configured
    username (possibly the same line), exactly when the first attempt
    failed with an error whose text contains
    "Could not resolve identity: @me"; nothing runs after that second
    attempt.  [getAzureDevOpsAccessToken] spawns the token command once; on
    failure it adds the install probe and, when that succeeds, the
    authentication probe, and never runs the token command again. *)
Theorem command_spawns h s :
  (forall s1 s2 s3 command,
     validateAzureCliIsInstalled h s = (Ok tt, s1) ->
     validateUserIsAuthenticated h s1 = (Ok tt, s2) ->
     validateDevOpsExtensionForDevOpsCommands command h s2 = (Ok tt, s3) ->
     spawned (snd (executeAzCommand command h s)) =
       (spawned s3 ++ command ::
          match fst (executeOnce command h s3) with
          | Ok _ => []
          | Throw e =>
              if includes (errorText e) atMeFailure
              then [replace_at_me command (configuredUsername h)] else []
          end)%list) /\
  spawned (snd (getAzureDevOpsAccessToken h s)) =
    (spawned s ++ accessTokenCommand ::
       match exec h (spawned s) accessTokenCommand with
       | Resolved _ _ => []
       | Rejected _ =>
           "az --version" ::
             match exec h (spawned s ++ [accessTokenCommand]) "az --version" with
             | Resolved _ _ => ["az account show"]
             | Rejected _ => []
             end
       end)%list.
Proof.
  split.
  - intros s1 s2 s3 command H1 H2 H3.
    unfold executeAzCommand. monad_simpl.
    rewrite H1, H2, H3.
    pose proof (executeOnce_spawned command h s3) as Hs4.
    destruct (executeOnce command h s3) as [[v|e] s4]; simpl in Hs4 |- *.
    + rewrite Hs4. reflexivity.
    + destruct (includes (errorText e) atMeFailure).
      * unfold ensureConfiguredUsername. monad_simpl.
        set (nc := replace_at_me command (configuredUsername h)).
        pose proof (executeOnce_spawned nc h s4) as Hs5.
        destruct (executeOnce nc h s4) as [[v'|e'] s5]; simpl in Hs5 |- *.
        -- rewrite Hs5, Hs4, <- app_assoc. reflexivity.
        -- rewrite handleExecutionError_state, Hs5, Hs4, <- app_assoc.
           reflexivity.
      * rewrite handleExecutionError_state, Hs4.
        reflexivity.
  - unfold getAzureDevOpsAccessToken, execAsync. monad_simpl.
    destruct (exec h (spawned s) accessTokenCommand) as [out err|pe]; simpl.
    + reflexivity.
    + unfold handleAccessTokenError, isInstalled, isAuthenticated, execAsync.
      monad_simpl. simpl.
      destruct (exec h (spawned s ++ [accessTokenCommand]) "az --version");
        simpl.
      * destruct (exec h _ "az account show"); simpl;
          rewrite <- !app_assoc; reflexivity.
      * rewrite <- !app_assoc; reflexivity.
Qed.

Lemma execAsync_resolved (c out err : string) h s :
  exec h (spawned s) c = Resolved out err ->
  execAsync c h s = (Ok (out, err), set_spawned s (spawned s ++ [c])).
Proof. intros He. unfold execAsync. rewrite He. reflexivity. Qed.

Lemma execAsync_rejected (c : string) pe h s :
  exec h (spawned s) c = Rejected pe ->
  execAsync c h s = (Throw (ProcessError pe), set_spawned s (spawned s ++ [c])).
Proof. intros He. unfold execAsync. rewrite He. reflexivity. Qed.

(** ** C6: diagnosis of a failed token command *)

(** C6.  When the token command fails, [getAzureDevOpsAccessToken] probes
    again: a failed install probe gives [AzureCliNotInstalledError]; else a
    failed authentication probe gives [AzureCliNotAuthenticatedError]; else
    the error is an [AzureCliExecutionError] carrying the original [stderr]
    (or the message when [stderr] is empty). *)
Theorem getAzureDevOpsAccessToken_diagnosis h s pe :
  exec h (spawned s) accessTokenCommand = Rejected pe ->
  let s1 := set_spawned s (spawned s ++ [accessTokenCommand]) in
  (forall s2, isInstalled h s1 = (Ok false, s2) ->
     fst (getAzureDevOpsAccessToken h s) = Throw AzureCliNotInstalledError) /\
  (forall s2 s3, isInstalled h s1 = (Ok true, s2) ->
     isAuthenticated h s2 = (Ok false, s3) ->
     fst (getAzureDevOpsAccessToken h s) = Throw AzureCliNotAuthenticatedError) /\
  (forall s2 s3, isInstalled h s1 = (Ok true, s2) ->
     isAuthenticated h s2 = (Ok true, s3) ->
     fst (getAzureDevOpsAccessToken h s) =
       Throw (AzureCliExecutionError "Failed to get access token"
                (str_or (pe_stderr pe) (pe_message pe)) JUndefined)).
Proof.
  intros He s1.
  unfold getAzureDevOpsAccessToken. monad_simpl.
  rewrite (execAsync_rejected _ _ _ _ He).
  fold s1. unfold handleAccessTokenError. monad_simpl.
  split; [|split].
  - intros s2 Hi. rewrite Hi. reflexivity.
  - intros s2 s3 Hi Ha. rewrite Hi. simpl. rewrite Ha. reflexivity.
  - intros s2 s3 Hi Ha. rewrite Hi. simpl. rewrite Ha. reflexivity.
Qed.

(** ** C3 and C7: [getSubscriptionInfo] *)

Lemma isInstalled_ok h s : exists b s', isInstalled h s = (Ok b, s').
Proof.
  unfold isInstalled. monad_simpl.
  destruct (execAsync "az --version" h s) as [[r|e] s']; eauto.
Qed.

Lemma isAuthenticated_ok h s : exists b s', isAuthenticated h s = (Ok b, s').
Proof.
  unfold isAuthenticated. monad_simpl.
  destruct (execAsync "az account show" h s) as [[r|e] s']; eauto.
Qed.

(** C3.  [getSubscriptionInfo] never raises: it always resolves.  With an
    empty subscription cache it resolves to a present value only when the
    install probe and the authentication probe both succeed and the
    structured command resolves to a truthy object whose [id] and [name]
    are truthy; so a failed probe, a throwing command, a null or
    non-object result, or a result missing [id] or [name] all give
    absent. *)
Theorem getSubscriptionInfo_never_raises h s :
  exists r s', getSubscriptionInfo h s = (Ok r, s') /\
    (cachedSubscription s = None -> r <> None ->
     exists s1 s2 v s3,
       isInstalled h s = (Ok true, s1) /\
       isAuthenticated h s1 = (Ok true, s2) /\
       executeAzCommand subscriptionCommand h s2 = (Ok v, s3) /\
       truthy v = true /\ is_object v = true /\
       truthy (get v "id") = true /\ truthy (get v "name") = true).
Proof.
  unfold getSubscriptionInfo. monad_simpl.
  destruct (cachedSubscription s) as [info|] eqn:Hc.
  { exists (Some info), s. split; [reflexivity|]. discriminate. }
  destruct (isInstalled_ok h s) as [b [s1 Hi]]. rewrite Hi.
  destruct b; simpl;
    [|exists None, s1; split; [reflexivity|]; intros _ H; congruence].
  destruct (isAuthenticated_ok h s1) as [b [s2 Ha]]. rewrite Ha.
  destruct b; simpl;
    [|exists None, s2; split; [reflexivity|]; intros _ H; congruence].
  destruct (executeAzCommand subscriptionCommand h s2) as [[v|e] s3] eqn:Hx;
    simpl; [|exists None, s3; split; [reflexivity|]; intros _ H; congruence].
  destruct (truthy v) eqn:Hv; simpl;
    [|exists None, s3; split; [reflexivity|]; intros _ H; congruence].
  destruct (is_object v) eqn:Ho; simpl;
    [|exists None, s3; split; [reflexivity|]; intros _ H; congruence].
  destruct (truthy (get v "id")) eqn:Hid; simpl;
    [|exists None, s3; split; [reflexivity|]; intros _ H; congruence].
  destruct (truthy (get v "name")) eqn:Hn; simpl;
    [|exists None, s3; split; [reflexivity|]; intros _ H; congruence].
  repeat match goal with
         | |- context [match js_String ?x with Ok _ => _ | Throw _ => _ end] =>
             destruct (js_String x); simpl;
               [|exists None, s3; split; [reflexivity|]; intros _ H; congruence]
         end.
  eexists _, _. split; [reflexivity|].
  intros _ _. exists s1, s2, v, s3. repeat split; assumption.
Qed.

Lemma js_or_fallback (a b : jsval) :
  js_or (js_or a b) (JStr "") =
    if truthy a then a else if truthy b then b else JStr "".
Proof. unfold js_or. destruct (truthy a) eqn:E; [rewrite E|]; reflexivity. Qed.

(** C7.  With an empty subscription cache, passing probes and a structured
    result [v]: a result lacking [id] or lacking [name] (in particular one
    lacking both) gives absent.  On success the record holds [String(id)],
    [String(name)], [String(tenantId)] falling back to
    [String(homeTenantId)] (then [""]) and [String(state)] falling back to
    ["Unknown"]; such a record is returned whenever the result is a truthy
    object with truthy [id] and [name] and the four conversions succeed,
    and absent is returned when one of them throws. *)
Theorem getSubscriptionInfo_fields h s s1 s2 s3 v :
  cachedSubscription s = None ->
  isInstalled h s = (Ok true, s1) ->
  isAuthenticated h s1 = (Ok true, s2) ->
  executeAzCommand subscriptionCommand h s2 = (Ok v, s3) ->
  let tenant := if truthy (get v "tenantId") then get v "tenantId"
                else if truthy (get v "homeTenantId") then get v "homeTenantId"
                else JStr "" in
  let state := if truthy (get v "state") then get v "state" else JStr "Unknown" in
  (truthy (get v "id") = false \/ truthy (get v "name") = false ->
   fst (getSubscriptionInfo h s) = Ok None) /\
  (forall i, fst (getSubscriptionInfo h s) = Ok (Some i) ->
     truthy (get v "id") = true /\ truthy (get v "name") = true /\
     js_String (get v "id") = Ok (sub_id i) /\
     js_String (get v "name") = Ok (sub_name i) /\
     js_String tenant = Ok (sub_tenantId i) /\
     js_String state = Ok (sub_state i)) /\
  (truthy v = true -> is_object v = true ->
   truthy (get v "id") = true -> truthy (get v "name") = true ->
   forall a b c d,
     js_String (get v "id") = Ok a -> js_String (get v "name") = Ok b ->
     js_String tenant = Ok c -> js_String state = Ok d ->
     fst (getSubscriptionInfo h s) =
       Ok (Some {| sub_id := a; sub_name := b; sub_tenantId := c; sub_state := d |})) /\
  (forall e, js_String (get v "id") = Throw e \/ js_String (get v "name") = Throw e \/
             js_String tenant = Throw e \/ js_String state = Throw e ->
   fst (getSubscriptionInfo h s) = Ok None).
Proof.
  intros Hc Hi Ha Hx. cbv zeta.
  unfold getSubscriptionInfo. monad_simpl.
  rewrite Hc, Hi. simpl. rewrite Ha. simpl. rewrite Hx. simpl.
  rewrite js_or_fallback.
  change (js_or (get v "state") (JStr "Unknown"))
    with (if truthy (get v "state") then get v "state" else JStr "Unknown").
  split; [|split; [|split]].
  - intros Hmiss.
    destruct (truthy v), (is_object v); simpl; try reflexivity.
    destruct Hmiss as [H|H]; rewrite H; simpl;
      [reflexivity|destruct (truthy (get v "id")); reflexivity].
  - intros i E.
    destruct (truthy v), (is_object v); simpl in E; try discriminate E.
    destruct (truthy (get v "id")) eqn:Hid, (truthy (get v "name")) eqn:Hn;
      simpl in E; try discriminate E.
    repeat match type of E with
           | context [match js_String ?x with Ok _ => _ | Throw _ => _ end] =>
               let Ex := fresh "Ex" in
               destruct (js_String x) eqn:Ex; simpl in E; [|discriminate E]
           end.
    injection E as <-. repeat split; assumption.
  - intros Hv Ho Hid Hn a b c d Ea Eb Ec Ed.
    rewrite Hv, Ho, Hid, Hn. simpl. rewrite Ea, Eb, Ec, Ed. reflexivity.
  - intros e He.
    destruct (truthy v), (is_object v); simpl; try reflexivity.
    destruct (truthy (get v "id")), (truthy (get v "name")); simpl; try reflexivity.
    repeat match goal with
           | |- context [match js_String ?x with Ok _ => _ | Throw _ => _ end] =>
               let Ex := fresh "Ex" in
               destruct (js_String x) eqn:Ex; simpl; [|reflexivity]
           end.
    exfalso. destruct He as [E|[E|[E|E]]]; congruence.
Qed.

(** ** Facts about [trim] and [getEnvVar] *)

Lemma drop_ws_head (l : list ascii) :
  match drop_ws l with [] => True | c :: _ => is_js_ws c = false end.
Proof.
  induction l as [|c r IH]; simpl; [exact I|].
  destruct (is_js_ws c) eqn:E; [exact IH|exact E].
Qed.

Lemma drop_ws_noop (l : list ascii) :
  match l with [] => True | c :: _ => is_js_ws c = false end -> drop_ws l = l.
Proof. destruct l as [|c r]; simpl; [reflexivity|]. intros ->. reflexivity. Qed.

Lemma drop_ws_idem (l : list ascii) : drop_ws (drop_ws l) = drop_ws l.
Proof. apply drop_ws_noop, drop_ws_head. Qed.

Lemma drop_ws_suffix (l : list ascii) : exists p, l = (p ++ drop_ws l)%list.
Proof.
  induction l as [|c r [p Hp]]; simpl; [exists []; reflexivity|].
  destruct (is_js_ws c).
  - exists (c :: p). simpl. rewrite <- Hp. reflexivity.
  - exists []. reflexivity.
Qed.

Lemma trim_idem (s : string) : trim (trim s) = trim s.
Proof.
  unfold trim. rewrite list_ascii_of_string_of_list_ascii.
  set (L1 := drop_ws (list_ascii_of_string s)).
  assert (Hh : match L1 with [] => True | c :: _ => is_js_ws c = false end)
    by apply drop_ws_head.
  destruct (drop_ws_suffix (rev L1)) as [p Hp].
  set (X := rev (drop_ws (rev L1))).
  assert (HL1 : L1 = (X ++ rev p)%list).
  { rewrite <- (rev_involutive L1) at 1. rewrite Hp, rev_app_distr. reflexivity. }
  assert (HX : drop_ws X = X).
  { apply drop_ws_noop. destruct X as [|c r]; [exact I|].
    rewrite HL1 in Hh. exact Hh. }
  rewrite HX. unfold X. rewrite rev_involutive, drop_ws_idem. reflexivity.
Qed.

Lemma str_truthy_iff (t : string) : str_truthy t = true <-> t <> "".
Proof. destruct t; simpl; split; congruence. Qed.

Lemma getEnvVar_spec (name : string) h s :
  getEnvVar name h s =
    (Ok (match env h name with
         | None => None
         | Some v => if String.eqb (trim v) "" then None else Some (trim v)
         end), s).
Proof.
  unfold getEnvVar. monad_simpl.
  destruct (env h name) as [[|c r]|]; [reflexivity| |reflexivity].
  simpl. destruct (trim (String c r) =? ""); reflexivity.
Qed.

Lemma getEnvVar_ok (name t : string) h s :
  getEnvVar name h s = (Ok (Some t), s) -> token_ok t.
Proof.
  rewrite getEnvVar_spec. destruct (env h name) as [v|]; [|discriminate].
  destruct (String.eqb (trim v) "") eqn:E; [discriminate|].
  intros Heq. injection Heq as <-. split.
  - intros H. rewrite H in E. discriminate.
  - apply trim_idem.
Qed.

(** ** Operations that leave the token slot alone *)

Create HintDb keeps_db.

Lemma kt_ret {A} (a : A) : keeps_token (ret a).
Proof. intros h s. reflexivity. Qed.
Lemma kt_throw {A} (e : jserr) : keeps_token (@throw A e).
Proof. intros h s. reflexivity. Qed.
Lemma kt_ask : keeps_token ask.
Proof. intros h s. reflexivity. Qed.
Lemma kt_get_state : keeps_token get_state.
Proof. intros h s. reflexivity. Qed.
Lemma kt_execAsync (c : string) : keeps_token (execAsync c).
Proof. intros h s. unfold execAsync. destruct (exec h (spawned s) c); reflexivity. Qed.
#[local] Hint Resolve kt_ret kt_throw kt_ask kt_get_state kt_execAsync : keeps_db.

Lemma kt_bind {A B} (m : M A) (k : A -> M B) :
  keeps_token m -> (forall a, keeps_token (k a)) -> keeps_token (bind m k).
Proof.
  intros Hm Hk h s. specialize (Hm h s). unfold bind.
  destruct (m h s) as [[a|e] s'] eqn:E; simpl in *; [rewrite Hk|]; exact Hm.
Qed.

Lemma kt_catch {A} (m : M A) (handler : jserr -> M A) :
  keeps_token m -> (forall e, keeps_token (handler e)) -> keeps_token (catch m handler).
Proof.
  intros Hm Hh h s. specialize (Hm h s). unfold catch.
  destruct (m h s) as [[a|e] s'] eqn:E; simpl in *; [|rewrite Hh]; exact Hm.
Qed.

Lemma kt_put_sub {A} (i : option SubscriptionInfo) (k : M A) :
  keeps_token k ->
  keeps_token (s' <- get_state;; put_state (set_cachedSubscription s' i);; k).
Proof. intros Hk h s. unfold bind, get_state, put_state. rewrite Hk. reflexivity. Qed.

Ltac keeps_tac :=
  repeat first
    [ solve [eauto with keeps_db]
    | apply kt_put_sub
    | apply kt_bind; [|intros ?]
    | apply kt_catch; [|intros ?]
    | match goal with
      | |- keeps_token (match ?x with _ => _ end) => destruct x
      | |- keeps_token (let _ := _ in _) => cbv zeta
      end ].

Lemma kt_isInstalled : keeps_token isInstalled.
Proof. unfold isInstalled. keeps_tac. Qed.
Lemma kt_isAuthenticated : keeps_token isAuthenticated.
Proof. unfold isAuthenticated. keeps_tac. Qed.
Lemma kt_JSON_parse (text : string) : keeps_token (JSON_parse text).
Proof. unfold JSON_parse. keeps_tac. Qed.
#[local] Hint Resolve kt_isInstalled kt_isAuthenticated kt_JSON_parse : keeps_db.

Lemma kt_extensionsIncludeAzureDevOps (v : jsval) :
  keeps_token (extensionsIncludeAzureDevOps v).
Proof.
  unfold extensionsIncludeAzureDevOps. destruct v; try apply kt_throw.
  induction elems as [|x r IH]; [apply kt_ret|].
  destruct x; try apply kt_throw;
    destruct (get _ "name"); try exact IH;
    match goal with |- keeps_token (if ?b then _ else _) => destruct b end;
    auto with keeps_db.
Qed.
#[local] Hint Resolve kt_extensionsIncludeAzureDevOps : keeps_db.

Lemma kt_hasDevOpsExtension : keeps_token hasDevOpsExtension.
Proof. unfold hasDevOpsExtension. keeps_tac. Qed.
#[local] Hint Resolve kt_hasDevOpsExtension : keeps_db.

Lemma kt_validateAzureCliIsInstalled : keeps_token validateAzureCliIsInstalled.
Proof. unfold validateAzureCliIsInstalled. keeps_tac. Qed.
Lemma kt_validateUserIsAuthenticated : keeps_token validateUserIsAuthenticated.
Proof. unfold validateUserIsAuthenticated. keeps_tac. Qed.
Lemma kt_validateDevOps (c : string) :
  keeps_token (validateDevOpsExtensionForDevOpsCommands c).
Proof. unfold validateDevOpsExtensionForDevOpsCommands. keeps_tac. Qed.
Lemma kt_ensureConfiguredUsername : keeps_token ensureConfiguredUsername.
Proof. unfold ensureConfiguredUsername. keeps_tac. Qed.
Lemma kt_handleStderrErrors (stderr : string) : keeps_token (handleStderrErrors stderr).
Proof. unfold handleStderrErrors. keeps_tac. Qed.
Lemma kt_parseJsonResponse (stdout : string) : keeps_token (parseJsonResponse stdout).
Proof. unfold parseJsonResponse. keeps_tac. Qed.
Lemma kt_handleExecutionError {A} (e : jserr) : keeps_token (@handleExecutionError A e).
Proof. unfold handleExecutionError. keeps_tac. Qed.
Lemma kt_handleAccessTokenError {A} (e : jserr) :
  keeps_token (@handleAccessTokenError A e).
Proof. unfold handleAccessTokenError. keeps_tac. Qed.
#[local] Hint Resolve kt_validateAzureCliIsInstalled kt_validateUserIsAuthenticated
  kt_validateDevOps kt_ensureConfiguredUsername kt_handleStderrErrors
  kt_parseJsonResponse kt_handleExecutionError kt_handleAccessTokenError : keeps_db.

Lemma kt_executeOnce (c : string) : keeps_token (executeOnce c).
Proof. unfold executeOnce. keeps_tac. Qed.
#[local] Hint Resolve kt_executeOnce : keeps_db.

Lemma kt_executeAzCommand (c : string) : keeps_token (executeAzCommand c).
Proof. unfold executeAzCommand. keeps_tac. Qed.
Lemma kt_getAzureDevOpsAccessToken : keeps_token getAzureDevOpsAccessToken.
Proof. unfold getAzureDevOpsAccessToken. keeps_tac. Qed.
Lemma kt_getEnvVar (name : string) : keeps_token (getEnvVar name).
Proof. unfold getEnvVar. keeps_tac. Qed.
#[local] Hint Resolve kt_executeAzCommand kt_getAzureDevOpsAccessToken kt_getEnvVar
  : keeps_db.

Lemma kt_getSubscriptionInfo : keeps_token getSubscriptionInfo.
Proof. unfold getSubscriptionInfo. keeps_tac. Qed.
#[local] Hint Resolve kt_getSubscriptionInfo : keeps_db.

(** ** The token resolution paths *)

Lemma getEnvVar_blank (name : string) h s :
  env_blank h name -> getEnvVar name h s = (Ok None, s).
Proof.
  unfold env_blank. intros Hb. rewrite getEnvVar_spec.
  destruct (env h name) as [v|]; [|reflexivity].
  rewrite Hb. reflexivity.
Qed.

Lemma getEnvVar_present (name v : string) h s :
  env h name = Some v -> trim v <> "" ->
  getEnvVar name h s = (Ok (Some (trim v)), s).
Proof.
  intros He Hne. rewrite getEnvVar_spec, He.
  apply String.eqb_neq in Hne. rewrite Hne. reflexivity.
Qed.

Lemma getEnvVar_cases (name : string) h s :
  getEnvVar name h s = (Ok None, s) \/
  exists t, getEnvVar name h s = (Ok (Some t), s) /\ token_ok t.
Proof.
  rewrite getEnvVar_spec. destruct (env h name) as [v|]; [|left; reflexivity].
  destruct (trim v =? "") eqn:Ev; [left; reflexivity|].
  right. exists (trim v). split; [reflexivity|]. split.
  - intros H. rewrite H in Ev. discriminate.
  - apply trim_idem.
Qed.

Lemma getAccessToken_cached h s t :
  cachedToken s = Some t -> str_truthy t = true -> getAccessToken h s = (Ok t, s).
Proof.
  intros Hc Ht. unfold getAccessToken. monad_simpl. rewrite Hc, Ht. reflexivity.
Qed.

Lemma getAccessToken_cli_success h s out err :
  cachedToken s = None ->
  env_blank h primaryEnvVar -> env_blank h secondaryEnvVar ->
  exec h (spawned s) accessTokenCommand = Resolved out err -> trim out <> "" ->
  getAccessToken h s =
    (Ok (trim out),
     set_cachedToken (set_spawned s (spawned s ++ [accessTokenCommand]))
       (Some (trim out))).
Proof.
  intros Hc Hb1 Hb2 He Hne.
  unfold getAccessToken. monad_simpl. rewrite Hc.
  unfold resolveAccessToken. monad_simpl.
  rewrite (getEnvVar_blank _ _ _ Hb1). cbv iota beta.
  rewrite (getEnvVar_blank _ _ _ Hb2). cbv iota beta.
  unfold getAzureDevOpsAccessToken. monad_simpl.
  rewrite (execAsync_resolved _ _ _ _ _ He). cbv iota beta. cbn [fst].
  rewrite trim_idem.
  apply str_truthy_iff in Hne. rewrite Hne. reflexivity.
Qed.

Lemma getAzureDevOpsAccessToken_first_spawn h s :
  exists rest, spawned (snd (getAzureDevOpsAccessToken h s)) =
               (spawned s ++ accessTokenCommand :: rest)%list.
Proof.
  unfold getAzureDevOpsAccessToken, execAsync. monad_simpl.
  destruct (exec h (spawned s) accessTokenCommand); simpl.
  - exists []. reflexivity.
  - unfold handleAccessTokenError, isInstalled, isAuthenticated, execAsync.
    monad_simpl. simpl.
    destruct (exec h _ "az --version"); simpl;
      [destruct (exec h _ "az account show"); simpl|];
      eexists; rewrite <- !app_assoc; reflexivity.
Qed.

(** Every failure of the resolution goes through the catch block of the
    external program path. *)
Lemma resolveAccessToken_throw h s e s' :
  resolveAccessToken h s = (Throw e, s') ->
  exists cause, e = PlainError tokenFailureMessage (Some cause) /\
    ((exists s1, getAzureDevOpsAccessToken h s = (Throw cause, s1)) \/
     (exists t s1, getAzureDevOpsAccessToken h s = (Ok t, s1) /\ trim t = "" /\
                   cause = PlainError emptyTokenMessage None)).
Proof.
  unfold resolveAccessToken. monad_simpl.
  destruct (getEnvVar_cases primaryEnvVar h s) as [E1|[t [E1 _]]]; rewrite E1;
    cbv iota beta; [|discriminate].
  destruct (getEnvVar_cases secondaryEnvVar h s) as [E2|[t [E2 _]]]; rewrite E2;
    cbv iota beta; [|discriminate].
  destruct (getAzureDevOpsAccessToken h s) as [[t|c] s1] eqn:Eg.
  - destruct (negb (str_truthy t) || negb (str_truthy (trim t))) eqn:Eb;
      [|discriminate].
    intros Heq. injection Heq as <- _.
    eexists. split; [reflexivity|]. right. exists t, s1.
    split; [reflexivity|]. split; [|reflexivity].
    destruct t as [|c r]; [reflexivity|].
    simpl in Eb. destruct (trim (String c r)); [reflexivity|discriminate].
  - intros Heq. injection Heq as <- _.
    eexists. split; [reflexivity|]. left. exists s1. reflexivity.
Qed.

(** ** C4: source priority *)

(** C4.  With an empty token cache, [getAccessToken] takes the primary
    variable [AZURE_DEVOPS_EXT_PAT] when it is non-blank: it caches and
    returns its trimmed value and spawns nothing.  A blank or unset primary
    variable falls through to [AZ_ACCESS_TOKEN] under the same rule, again
    with no spawn.  When both are blank or unset, the next spawn is the
    token command of the external program. *)
Theorem getAccessToken_priority h s :
  cachedToken s = None ->
  (forall v, env h primaryEnvVar = Some v -> trim v <> "" ->
     getAccessToken h s = (Ok (trim v), set_cachedToken s (Some (trim v)))) /\
  (forall v, env_blank h primaryEnvVar ->
     env h secondaryEnvVar = Some v -> trim v <> "" ->
     getAccessToken h s = (Ok (trim v), set_cachedToken s (Some (trim v)))) /\
  (env_blank h primaryEnvVar -> env_blank h secondaryEnvVar ->
     exists rest, spawned (snd (getAccessToken h s)) =
                  (spawned s ++ accessTokenCommand :: rest)%list).
Proof.
  intros Hc. unfold getAccessToken. monad_simpl. rewrite Hc.
  unfold resolveAccessToken. monad_simpl.
  split; [|split].
  - intros v He Hne. rewrite (getEnvVar_present _ _ _ _ He Hne). reflexivity.
  - intros v Hb He Hne. rewrite (getEnvVar_blank _ _ _ Hb). cbv iota beta.
    rewrite (getEnvVar_present _ _ _ _ He Hne). reflexivity.
  - intros Hb1 Hb2.
    rewrite (getEnvVar_blank _ _ _ Hb1). cbv iota beta.
    rewrite (getEnvVar_blank _ _ _ Hb2). cbv iota beta.
    destruct (getAzureDevOpsAccessToken_first_spawn h s) as [rest Hr].
    exists rest.
    destruct (getAzureDevOpsAccessToken h s) as [[t|c] s1]; simpl in Hr |- *;
      [destruct (_ || _)|]; exact Hr.
Qed.

(** ** C5: the cache lifecycle *)

(** C5.  With no token variables and an external program that always
    yields a non-blank token: the first [getAccessToken] spawns the token
    command once and resolves; the second returns the same result and
    spawns nothing; [clearCache] empties both slots, and the next
    [getAccessToken] spawns the token command again. *)
Theorem getAccessToken_cache_lifecycle h s0 r1 s1 r2 s2 :
  cachedToken s0 = None ->
  env_blank h primaryEnvVar -> env_blank h secondaryEnvVar ->
  (forall hist, exists out err,
     exec h hist accessTokenCommand = Resolved out err /\ trim out <> "") ->
  getAccessToken h s0 = (r1, s1) ->
  getAccessToken h s1 = (r2, s2) ->
  (exists t, r1 = Ok t) /\ r2 = r1 /\
  spawned s1 = (spawned s0 ++ [accessTokenCommand])%list /\
  spawned s2 = spawned s1 /\
  let s3 := snd (clearCache h s2) in
  cachedToken s3 = None /\ cachedSubscription s3 = None /\
  spawned (snd (getAccessToken h s3)) = (spawned s3 ++ [accessTokenCommand])%list.
Proof.
  intros Hc Hb1 Hb2 Hwork E1 E2.
  destruct (Hwork (spawned s0)) as [out [err [He Hne]]].
  rewrite (getAccessToken_cli_success _ _ _ _ Hc Hb1 Hb2 He Hne) in E1.
  injection E1 as <- <-.
  rewrite getAccessToken_cached with (t := trim out) in E2;
    [|reflexivity|apply str_truthy_iff; exact Hne].
  injection E2 as <- <-.
  split; [eauto|]. split; [reflexivity|]. split; [reflexivity|].
  split; [reflexivity|].
  cbv zeta. unfold clearCache. monad_simpl. simpl.
  split; [reflexivity|]. split; [reflexivity|].
  set (s3 := {| spawned := _; cachedToken := None; cachedSubscription := None |}).
  destruct (Hwork (spawned s3)) as [out' [err' [He' Hne']]].
  rewrite (getAccessToken_cli_success _ s3 _ _ eq_refl Hb1 Hb2 He' Hne').
  reflexivity.
Qed.

(** ** C9: the resolution failure *)

(** C9.  Every failure of [getAccessToken] is the one [Error] built in its
    catch block: its message names [AZURE_DEVOPS_EXT_PAT], [AZ_ACCESS_TOKEN]
    and the Azure CLI login, and its cause is the error of the external
    program path (the error thrown by [getAzureDevOpsAccessToken], or the
    "Empty token" error when it returned a blank token).  The message is
    the same for every failing run, whatever the token values involved. *)
Theorem getAccessToken_failure h s e s' :
  getAccessToken h s = (Throw e, s') ->
  (exists cause, e = PlainError tokenFailureMessage (Some cause) /\
     ((exists s1, getAzureDevOpsAccessToken h s = (Throw cause, s1)) \/
      (exists t s1, getAzureDevOpsAccessToken h s = (Ok t, s1) /\ trim t = "" /\
                    cause = PlainError emptyTokenMessage None))) /\
  includes (err_message e) primaryEnvVar = true /\
  includes (err_message e) secondaryEnvVar = true /\
  includes (err_message e) "Azure CLI login" = true /\
  (forall h' s0 e' s0', getAccessToken h' s0 = (Throw e', s0') ->
     err_message e' = err_message e).
Proof.
  assert (Hres : forall h s e s', getAccessToken h s = (Throw e, s') ->
            resolveAccessToken h s = (Throw e, s')).
  { clear. intros h s e s'. unfold getAccessToken. monad_simpl.
    destruct (cachedToken s) as [t|]; [|tauto].
    destruct (str_truthy t); [discriminate|tauto]. }
  intros H. apply Hres in H.
  destruct (resolveAccessToken_throw _ _ _ _ H) as [cause [-> Hc]].
  split; [eauto|]. split; [reflexivity|]. split; [reflexivity|].
  split; [reflexivity|].
  intros h' s0 e' s0' H'. apply Hres in H'.
  destruct (resolveAccessToken_throw _ _ _ _ H') as [cause' [-> _]].
  reflexivity.
Qed.

(** ** C10: the token slot invariant *)

Lemma keeps_cache_ok {A} (m : M A) h s :
  keeps_token m -> cache_ok s -> cache_ok (snd (m h s)).
Proof. intros Hk Hs. unfold cache_ok. rewrite Hk. exact Hs. Qed.

Lemma resolveAccessToken_ok h s r s' :
  cache_ok s -> resolveAccessToken h s = (r, s') ->
  cache_ok s' /\ (forall t, r = Ok t -> token_ok t).
Proof.
  intros Hs. unfold resolveAccessToken. monad_simpl.
  destruct (getEnvVar_cases primaryEnvVar h s) as [E1|[p [E1 Hp]]]; rewrite E1;
    cbv iota beta.
  2:{ intros Heq. injection Heq as <- <-. split; [exact Hp|].
      intros t Ht. injection Ht as <-. exact Hp. }
  destruct (getEnvVar_cases secondaryEnvVar h s) as [E2|[p [E2 Hp]]]; rewrite E2;
    cbv iota beta.
  2:{ intros Heq. injection Heq as <- <-. split; [exact Hp|].
      intros t Ht. injection Ht as <-. exact Hp. }
  pose proof (keeps_cache_ok _ h s kt_getAzureDevOpsAccessToken Hs) as Hs1.
  destruct (getAzureDevOpsAccessToken h s) as [[tok|c] s1]; simpl in Hs1.
  - destruct (negb (str_truthy tok) || negb (str_truthy (trim tok))) eqn:Eb.
    + intros Heq. injection Heq as <- <-. split; [exact Hs1|discriminate].
    + apply orb_false_iff in Eb. destruct Eb as [_ Eb].
      apply negb_false_iff, str_truthy_iff in Eb.
      assert (Hok : token_ok (trim tok)) by (split; [exact Eb|apply trim_idem]).
      intros Heq. injection Heq as <- <-. split; [exact Hok|].
      intros t Ht. injection Ht as <-. exact Hok.
  - intros Heq. injection Heq as <- <-. split; [exact Hs1|discriminate].
Qed.

Lemma getAccessToken_ok h s r s' :
  cache_ok s -> getAccessToken h s = (r, s') ->
  cache_ok s' /\ (forall t, r = Ok t -> token_ok t).
Proof.
  intros Hs. unfold getAccessToken. monad_simpl.
  destruct (cachedToken s) as [t|] eqn:Hc.
  - destruct (str_truthy t).
    + intros Heq. injection Heq as <- <-. split; [exact Hs|].
      intros t' Ht. injection Ht as <-. unfold cache_ok in Hs.
      rewrite Hc in Hs. exact Hs.
    + apply resolveAccessToken_ok. exact Hs.
  - apply resolveAccessToken_ok. exact Hs.
Qed.

Lemma getAuthenticationContext_ok h s :
  cache_ok s -> cache_ok (snd (getAuthenticationContext h s)).
Proof.
  intros Hs. unfold getAuthenticationContext. unfold bind at 1.
  destruct (getAccessToken h s) as [r s1] eqn:E.
  destruct (getAccessToken_ok _ _ _ _ Hs E) as [Hs1 _].
  destruct r as [token|e]; [|exact Hs1].
  apply keeps_cache_ok; [|exact Hs1].
  keeps_tac.
Qed.

(** C10.  In every reachable state a populated token slot holds a
    non-empty string equal to its own [trim] (no leading or trailing
    whitespace), hence truthy for the cache-hit test; and every token
    [getAccessToken] returns from such a state has the same form. *)
Theorem token_cache_invariant h s :
  reachable h s ->
  cache_ok s /\ (forall t s', getAccessToken h s = (Ok t, s') ->
                            token_ok t /\ str_truthy t = true).
Proof.
  intros Hr.
  assert (Hinv : cache_ok s).
  { induction Hr.
    - exact I.
    - destruct (getAccessToken h s) as [r s'] eqn:E.
      exact (proj1 (getAccessToken_ok _ _ _ _ IHHr E)).
    - apply keeps_cache_ok; [apply kt_getSubscriptionInfo|exact IHHr].
    - apply getAuthenticationContext_ok. exact IHHr.
    - exact I.
    - apply keeps_cache_ok; [apply kt_executeAzCommand|exact IHHr].
    - apply keeps_cache_ok; [apply kt_getAzureDevOpsAccessToken|exact IHHr]. }
  split; [exact Hinv|].
  intros t s' E.
  destruct (getAccessToken_ok _ _ _ _ Hinv E) as [_ Hok].
  specialize (Hok t eq_refl). split; [exact Hok|].
  apply str_truthy_iff. exact (proj1 Hok).
Qed.

(** ** Operations that change nothing but the spawn log *)

Create HintDb spawns_db.

Lemma os_ret {A} (a : A) : only_spawns (ret a).
Proof. intros h s. exists []. rewrite app_nil_r, set_spawned_same. reflexivity. Qed.
Lemma os_throw {A} (e : jserr) : only_spawns (@throw A e).
Proof. intros h s. exists []. rewrite app_nil_r, set_spawned_same. reflexivity. Qed.
Lemma os_ask : only_spawns ask.
Proof. intros h s. exists []. rewrite app_nil_r, set_spawned_same. reflexivity. Qed.
Lemma os_execAsync (c : string) : only_spawns (execAsync c).
Proof. intros h s. exists [c]. unfold execAsync. destruct (exec h (spawned s) c); reflexivity. Qed.
#[local] Hint Resolve os_ret os_throw os_ask os_execAsync : spawns_db.

Lemma os_bind {A B} (m : M A) (k : A -> M B) :
  only_spawns m -> (forall a, only_spawns (k a)) -> only_spawns (bind m k).
Proof.
  intros Hm Hk h s. destruct (Hm h s) as [l1 H1]. unfold bind.
  destruct (m h s) as [[a|e] s1]; simpl in H1 |- *; subst s1; [|exists l1; reflexivity].
  destruct (Hk a h (set_spawned s (spawned s ++ l1))) as [l2 H2].
  rewrite H2. exists (l1 ++ l2)%list. simpl. rewrite app_assoc. reflexivity.
Qed.

Lemma os_catch {A} (m : M A) (handler : jserr -> M A) :
  only_spawns m -> (forall e, only_spawns (handler e)) -> only_spawns (catch m handler).
Proof.
  intros Hm Hh h s. destruct (Hm h s) as [l1 H1]. unfold catch.
  destruct (m h s) as [[a|e] s1]; simpl in H1 |- *; subst s1; [exists l1; reflexivity|].
  destruct (Hh e h (set_spawned s (spawned s ++ l1))) as [l2 H2].
  rewrite H2. exists (l1 ++ l2)%list. simpl. rewrite app_assoc. reflexivity.
Qed.

Ltac spawns_tac :=
  repeat first
    [ solve [eauto with spawns_db]
    | apply os_bind; [|intros ?]
    | apply os_catch; [|intros ?]
    | match goal with
      | |- only_spawns (match ?x with _ => _ end) => destruct x
      | |- only_spawns (let _ := _ in _) => cbv zeta
      end ].

Lemma os_isInstalled : only_spawns isInstalled.
Proof. unfold isInstalled. spawns_tac. Qed.
Lemma os_isAuthenticated : only_spawns isAuthenticated.
Proof. unfold isAuthenticated. spawns_tac. Qed.
Lemma os_JSON_parse (text : string) : only_spawns (JSON_parse text).
Proof. unfold JSON_parse. spawns_tac. Qed.
#[local] Hint Resolve os_isInstalled os_isAuthenticated os_JSON_parse : spawns_db.

Lemma extensionsIncludeAzureDevOps_state (v : jsval) h s :
  exists r, extensionsIncludeAzureDevOps v h s = (r, s).
Proof.
  unfold extensionsIncludeAzureDevOps. destruct v; try (eexists; reflexivity).
  induction elems as [|x r IH]; [eexists; reflexivity|].
  destruct x; try (eexists; reflexivity);
    destruct (get _ "name"); try exact IH;
    match goal with |- exists _, (if ?b then _ else _) _ _ = _ => destruct b end;
    try exact IH; eexists; reflexivity.
Qed.

Lemma os_extensionsIncludeAzureDevOps (v : jsval) :
  only_spawns (extensionsIncludeAzureDevOps v).
Proof.
  intros h s. destruct (extensionsIncludeAzureDevOps_state v h s) as [r E].
  rewrite E. exists []. rewrite app_nil_r, set_spawned_same. reflexivity.
Qed.
#[local] Hint Resolve os_extensionsIncludeAzureDevOps : spawns_db.

Lemma os_hasDevOpsExtension : only_spawns hasDevOpsExtension.
Proof. unfold hasDevOpsExtension. spawns_tac. Qed.
#[local] Hint Resolve os_hasDevOpsExtension : spawns_db.

Lemma os_validateAzureCliIsInstalled : only_spawns validateAzureCliIsInstalled.
Proof. unfold validateAzureCliIsInstalled. spawns_tac. Qed.
Lemma os_validateUserIsAuthenticated : only_spawns validateUserIsAuthenticated.
Proof. unfold validateUserIsAuthenticated. spawns_tac. Qed.
Lemma os_validateDevOps (c : string) :
  only_spawns (validateDevOpsExtensionForDevOpsCommands c).
Proof. unfold validateDevOpsExtensionForDevOpsCommands. spawns_tac. Qed.
Lemma os_ensureConfiguredUsername : only_spawns ensureConfiguredUsername.
Proof. unfold ensureConfiguredUsername. spawns_tac. Qed.
Lemma os_handleStderrErrors (stderr : string) : only_spawns (handleStderrErrors stderr).
Proof. unfold handleStderrErrors. spawns_tac. Qed.
Lemma os_parseJsonResponse (stdout : string) : only_spawns (parseJsonResponse stdout).
Proof. unfold parseJsonResponse. spawns_tac. Qed.
Lemma os_handleExecutionError {A} (e : jserr) : only_spawns (@handleExecutionError A e).
Proof. unfold handleExecutionError. spawns_tac. Qed.
Lemma os_handleAccessTokenError {A} (e : jserr) :
  only_spawns (@handleAccessTokenError A e).
Proof. unfold handleAccessTokenError. spawns_tac. Qed.
#[local] Hint Resolve os_validateAzureCliIsInstalled os_validateUserIsAuthenticated
  os_validateDevOps os_ensureConfiguredUsername os_handleStderrErrors
  os_parseJsonResponse os_handleExecutionError os_handleAccessTokenError : spawns_db.

Lemma os_executeOnce (c : string) : only_spawns (executeOnce c).
Proof. unfold executeOnce. spawns_tac. Qed.
#[local] Hint Resolve os_executeOnce : spawns_db.

Lemma os_executeAzCommand (c : string) : only_spawns (executeAzCommand c).
Proof. unfold executeAzCommand. spawns_tac. Qed.
Lemma os_getAzureDevOpsAccessToken : only_spawns getAzureDevOpsAccessToken.
Proof. unfold getAzureDevOpsAccessToken. spawns_tac. Qed.
#[local] Hint Resolve os_executeAzCommand os_getAzureDevOpsAccessToken : spawns_db.

Lemma os_caches {A} (m : M A) h s :
  only_spawns m ->
  cachedToken (snd (m h s)) = cachedToken s /\
  cachedSubscription (snd (m h s)) = cachedSubscription s.
Proof. intros Hm. destruct (Hm h s) as [l ->]. split; reflexivity. Qed.

Lemma os_caches_eq {A} (m : M A) h s r s' :
  only_spawns m -> m h s = (r, s') ->
  cachedToken s' = cachedToken s /\ cachedSubscription s' = cachedSubscription s.
Proof.
  intros Hm E. pose proof (os_caches m h s Hm) as H. rewrite E in H. exact H.
Qed.

Lemma probe_spec (c : string) h s :
  catch (execAsync c;; ret true) (fun _ => ret false) h s =
    (Ok (match exec h (spawned s) c with Resolved _ _ => true | Rejected _ => false end),
     set_spawned s (spawned s ++ [c])).
Proof.
  unfold execAsync. monad_simpl. destruct (exec h (spawned s) c); reflexivity.
Qed.

Lemma isInstalled_spec h s :
  isInstalled h s =
    (Ok (match exec h (spawned s) "az --version" with
         | Resolved _ _ => true | Rejected _ => false end),
     set_spawned s (spawned s ++ ["az --version"])).
Proof. apply probe_spec. Qed.

Lemma isAuthenticated_spec h s :
  isAuthenticated h s =
    (Ok (match exec h (spawned s) "az account show" with
         | Resolved _ _ => true | Rejected _ => false end),
     set_spawned s (spawned s ++ ["az account show"])).
Proof. apply probe_spec. Qed.

Lemma hasDevOpsExtension_spawns h s :
  exists b, hasDevOpsExtension h s =
    (Ok b, set_spawned s (spawned s ++ ["az extension list --output json"])).
Proof.
  unfold hasDevOpsExtension, execAsync, JSON_parse. monad_simpl.
  destruct (exec h (spawned s) _) as [out err|pe]; simpl; [|eexists; reflexivity].
  destruct (json_parse out) as [v|m]; simpl; [|eexists; reflexivity].
  destruct (extensionsIncludeAzureDevOps_state v h
              (set_spawned s (spawned s ++ ["az extension list --output json"])))
    as [[b|e] E]; rewrite E; eexists; reflexivity.
Qed.

Lemma handleExecutionError_known {A} (e : jserr) h s :
  exists e', @handleExecutionError A e h s = (Throw e', s) /\ isKnownError e' = true.
Proof.
  unfold handleExecutionError. destruct (isKnownError e) eqn:E; eexists;
    split; try reflexivity; assumption.
Qed.

Lemma str_or_empty (a : string) : str_or a "" = a.
Proof. destruct a; reflexivity. Qed.

Lemma str_or_nil (b : string) : str_or "" b = b.
Proof. reflexivity. Qed.

(** ** Extra properties of [AzureCliService] *)

(** The checks of [executeAzCommand] run in order and stop at the first
    failure: a failed install probe gives [AzureCliNotInstalledError] after
    spawning only "az --version"; a failed authentication probe gives
    [AzureCliNotAuthenticatedError] after spawning only the two probes.  The
    command itself is never spawned. *)
Theorem executeAzCommand_probe_failures h s (command : string) :
  (forall pe, exec h (spawned s) "az --version" = Rejected pe ->
     executeAzCommand command h s =
       (Throw AzureCliNotInstalledError,
        set_spawned s (spawned s ++ ["az --version"]))) /\
  (forall out err pe, exec h (spawned s) "az --version" = Resolved out err ->
     exec h (spawned s ++ ["az --version"]) "az account show" = Rejected pe ->
     executeAzCommand command h s =
       (Throw AzureCliNotAuthenticatedError,
        set_spawned s (spawned s ++ ["az --version"; "az account show"]))).
Proof.
  unfold executeAzCommand, validateAzureCliIsInstalled, validateUserIsAuthenticated.
  split.
  - intros pe He. monad_simpl. rewrite isInstalled_spec, He. reflexivity.
  - intros out err pe He Ha. monad_simpl. rewrite isInstalled_spec, He. cbv iota beta.
    rewrite isAuthenticated_spec. simpl. rewrite Ha. simpl. rewrite <- app_assoc. reflexivity.
Qed.

Lemma probes_pass {A} h s (k : M A) out1 err1 out2 err2 :
  exec h (spawned s) "az --version" = Resolved out1 err1 ->
  exec h (spawned s ++ ["az --version"]) "az account show" = Resolved out2 err2 ->
  (validateAzureCliIsInstalled;; validateUserIsAuthenticated;; k) h s =
    k h (set_spawned s (spawned s ++ ["az --version"; "az account show"])).
Proof.
  intros He Ha. unfold validateAzureCliIsInstalled, validateUserIsAuthenticated.
  monad_simpl. rewrite isInstalled_spec, He.
  cbv iota beta. rewrite isAuthenticated_spec. simpl. rewrite Ha. cbv iota beta.
  simpl. rewrite <- app_assoc. reflexivity.
Qed.

Lemma extension_missing_run h s (command : string) out1 err1 out2 err2 s3 :
  exec h (spawned s) "az --version" = Resolved out1 err1 ->
  exec h (spawned s ++ ["az --version"]) "az account show" = Resolved out2 err2 ->
  isDevOpsCommand command = true ->
  hasDevOpsExtension h (set_spawned s (spawned s ++ ["az --version"; "az account show"])) =
    (Ok false, s3) ->
  executeAzCommand command h s = (Throw AzureDevOpsExtensionNotInstalledError, s3) /\
  spawned s3 = (spawned s ++ ["az --version"; "az account show";
                              "az extension list --output json"])%list.
Proof.
  intros He Ha Hd Hx.
  unfold executeAzCommand. rewrite (probes_pass _ _ _ _ _ _ _ He Ha).
  unfold validateDevOpsExtensionForDevOpsCommands. rewrite Hd. monad_simpl. rewrite Hx.
  destruct (hasDevOpsExtension_spawns h
              (set_spawned s (spawned s ++ ["az --version"; "az account show"]))) as [b Hb].
  rewrite Hx in Hb. injection Hb as <- ->. split; [reflexivity|].
  simpl. rewrite <- app_assoc. reflexivity.
Qed.

(** The extension check gates DevOps commands only.  Once both probes pass,
    a command naming "az repos" or "az devops" whose extension probe reports
    no azure-devops extension fails with
    [AzureDevOpsExtensionNotInstalledError] after the three probes, without
    being spawned; any other command is spawned right after the two probes,
    with no extension probe. *)
Theorem executeAzCommand_extension_gate h s (command : string) out1 err1 out2 err2 :
  exec h (spawned s) "az --version" = Resolved out1 err1 ->
  exec h (spawned s ++ ["az --version"]) "az account show" = Resolved out2 err2 ->
  let s2 := set_spawned s (spawned s ++ ["az --version"; "az account show"]) in
  (isDevOpsCommand command = true ->
   forall s3, hasDevOpsExtension h s2 = (Ok false, s3) ->
   executeAzCommand command h s = (Throw AzureDevOpsExtensionNotInstalledError, s3) /\
   spawned s3 = (spawned s ++ ["az --version"; "az account show";
                               "az extension list --output json"])%list) /\
  (isDevOpsCommand command = false ->
   exists rest, spawned (snd (executeAzCommand command h s)) =
                (spawned s ++ ["az --version"; "az account show"; command] ++ rest)%list).
Proof.
  intros He Ha s2. split.
  - intros Hd s3 Hx. exact (extension_missing_run _ _ _ _ _ _ _ _ He Ha Hd Hx).
  - intros Hd. unfold executeAzCommand. rewrite (probes_pass _ _ _ _ _ _ _ He Ha).
    fold s2. unfold validateDevOpsExtensionForDevOpsCommands. rewrite Hd. monad_simpl.
    pose proof (executeOnce_spawned command h s2) as Hs4.
    destruct (executeOnce command h s2) as [[v|e] s4]; simpl in Hs4 |- *.
    + exists []. rewrite Hs4. unfold s2. simpl. rewrite <- !app_assoc. reflexivity.
    + destruct (includes (errorText e) atMeFailure).
      * unfold ensureConfiguredUsername. monad_simpl.
        set (nc := replace_at_me command (configuredUsername h)).
        pose proof (executeOnce_spawned nc h s4) as Hs5.
        destruct (executeOnce nc h s4) as [[v'|e'] s5]; simpl in Hs5 |- *.
        -- exists [nc]. rewrite Hs5, Hs4. unfold s2. simpl.
           rewrite <- !app_assoc. reflexivity.
        -- exists [nc]. rewrite handleExecutionError_state, Hs5, Hs4. unfold s2. simpl.
           rewrite <- !app_assoc. reflexivity.
      * exists []. rewrite handleExecutionError_state, Hs4. unfold s2. simpl.
        rewrite <- !app_assoc. reflexivity.
Qed.

Lemma extensions_skip (pre rest : list jsval) h s :
  forallb (fun y => match y with
                    | JUndefined | JNull => false
                    | _ => negb (strict_equals (get y "name") (JStr "azure-devops"))
                    end) pre = true ->
  extensionsIncludeAzureDevOps (JArr (pre ++ rest)) h s =
    extensionsIncludeAzureDevOps (JArr rest) h s.
Proof.
  induction pre as [|y pre IH]; simpl; [reflexivity|].
  intros Hok. apply andb_prop in Hok. destruct Hok as [Hy Hpre].
  specialize (IH Hpre). unfold extensionsIncludeAzureDevOps in IH |- *.
  destruct y; try discriminate Hy;
    destruct (get _ "name") eqn:En; try exact IH;
    simpl in Hy; apply negb_true_iff in Hy; rewrite Hy; exact IH.
Qed.

(** The extension probe never throws and spawns exactly
    "az extension list --output json".  It reports [false] when the probe
    fails, when its output is not JSON, and when the parsed output is not an
    array.  On an array it scans the entries in order: an array of entries
    that are neither missing nor named "azure-devops" (the empty one
    included) gives [false]; an entry named "azure-devops" reached after
    such entries gives [true], while a [null] or [undefined] entry reached
    first gives [false] even if an azure-devops entry follows. *)
Theorem hasDevOpsExtension_result h s :
  let s' := set_spawned s (spawned s ++ ["az extension list --output json"]) in
  let plain := fun y => match y with
                        | JUndefined | JNull => false
                        | _ => negb (strict_equals (get y "name") (JStr "azure-devops"))
                        end in
  (exists b, hasDevOpsExtension h s = (Ok b, s')) /\
  (forall pe, exec h (spawned s) "az extension list --output json" = Rejected pe ->
     hasDevOpsExtension h s = (Ok false, s')) /\
  (forall out err m, exec h (spawned s) "az extension list --output json" = Resolved out err ->
     json_parse out = inr m -> hasDevOpsExtension h s = (Ok false, s')) /\
  (forall out err v, exec h (spawned s) "az extension list --output json" = Resolved out err ->
     json_parse out = inl v -> (forall l, v <> JArr l) ->
     hasDevOpsExtension h s = (Ok false, s')) /\
  (forall out err l, exec h (spawned s) "az extension list --output json" = Resolved out err ->
     json_parse out = inl (JArr l) -> forallb plain l = true ->
     hasDevOpsExtension h s = (Ok false, s')) /\
  (forall out err pre x post,
     exec h (spawned s) "az extension list --output json" = Resolved out err ->
     json_parse out = inl (JArr (pre ++ x :: post)) -> forallb plain pre = true ->
     (get x "name" = JStr "azure-devops" -> hasDevOpsExtension h s = (Ok true, s')) /\
     (x = JNull \/ x = JUndefined -> hasDevOpsExtension h s = (Ok false, s'))).
Proof.
  intros s' plain.
  split; [exact (hasDevOpsExtension_spawns h s)|].
  unfold hasDevOpsExtension, JSON_parse. monad_simpl.
  split; [|split; [|split; [|split]]].
  - intros pe He. rewrite (execAsync_rejected _ _ _ _ He). reflexivity.
  - intros out err m He Hp. rewrite (execAsync_resolved _ _ _ _ _ He). simpl.
    rewrite Hp. reflexivity.
  - intros out err v He Hp Hna. rewrite (execAsync_resolved _ _ _ _ _ He). simpl.
    rewrite Hp. unfold extensionsIncludeAzureDevOps.
    destruct v; try reflexivity. exfalso. exact (Hna elems eq_refl).
  - intros out err l He Hp Hl.
    rewrite (execAsync_resolved _ _ _ _ _ He). cbv iota beta. cbn [fst].
    rewrite Hp. cbv iota beta.
    rewrite <- (app_nil_r l) in Hl |- *.
    rewrite (extensions_skip l [] h _ (proj1 (andb_prop _ _ (eq_trans
               (eq_sym (forallb_app plain l [])) Hl)))).
    reflexivity.
  - intros out err pre x post He Hp Hpre.
    rewrite (execAsync_resolved _ _ _ _ _ He). cbv iota beta. cbn [fst].
    rewrite Hp. cbv iota beta.
    rewrite (extensions_skip pre (x :: post) h _ Hpre).
    unfold extensionsIncludeAzureDevOps. split.
    + intros Hx. destruct x; try discriminate Hx; rewrite Hx; reflexivity.
    + intros [-> | ->]; reflexivity.
Qed.

Lemma validateAzureCliIsInstalled_throw h s e s' :
  validateAzureCliIsInstalled h s = (Throw e, s') -> e = AzureCliNotInstalledError.
Proof.
  unfold validateAzureCliIsInstalled. monad_simpl. rewrite isInstalled_spec.
  destruct (exec _ _ _); simpl; congruence.
Qed.

Lemma validateUserIsAuthenticated_throw h s e s' :
  validateUserIsAuthenticated h s = (Throw e, s') -> e = AzureCliNotAuthenticatedError.
Proof.
  unfold validateUserIsAuthenticated. monad_simpl. rewrite isAuthenticated_spec.
  destruct (exec _ _ _); simpl; congruence.
Qed.

Lemma validateDevOps_throw (c : string) h s e s' :
  validateDevOpsExtensionForDevOpsCommands c h s = (Throw e, s') ->
  e = AzureDevOpsExtensionNotInstalledError.
Proof.
  unfold validateDevOpsExtensionForDevOpsCommands. monad_simpl.
  destruct (isDevOpsCommand c); [|congruence].
  destruct (hasDevOpsExtension_spawns h s) as [b ->]. destruct b; simpl; congruence.
Qed.

(** Every error [executeAzCommand] throws is one of the service's typed
    errors (not installed, not authenticated, extension missing,
    organization not configured, or an [AzureCliExecutionError]): process
    errors, JSON syntax errors and anything else are wrapped by
    [handleExecutionError], also after the "@me" retry. *)
Theorem executeAzCommand_typed_errors (command : string) h s e s' :
  executeAzCommand command h s = (Throw e, s') -> isKnownError e = true.
Proof.
  unfold executeAzCommand. unfold bind at 1.
  destruct (validateAzureCliIsInstalled h s) as [[[]|e1] s1] eqn:E1.
  2:{ intros Heq. injection Heq as <- _.
      rewrite (validateAzureCliIsInstalled_throw _ _ _ _ E1). reflexivity. }
  unfold bind at 1.
  destruct (validateUserIsAuthenticated h s1) as [[[]|e2] s2] eqn:E2.
  2:{ intros Heq. injection Heq as <- _.
      rewrite (validateUserIsAuthenticated_throw _ _ _ _ E2). reflexivity. }
  unfold bind at 1.
  destruct (validateDevOpsExtensionForDevOpsCommands command h s2) as [[[]|e3] s3] eqn:E3.
  2:{ intros Heq. injection Heq as <- _.
      rewrite (validateDevOps_throw _ _ _ _ _ E3). reflexivity. }
  unfold catch at 1.
  destruct (executeOnce command h s3) as [[v|e4] s4]; [discriminate|].
  destruct (includes (errorText e4) atMeFailure).
  - unfold ensureConfiguredUsername. monad_simpl.
    destruct (executeOnce _ h s4) as [[v'|e5] s5]; [discriminate|].
    destruct (handleExecutionError_known (A := jsval) e5 h s5) as [e' [He' Hk]].
    rewrite He'. intros Heq. injection Heq as <- _. exact Hk.
  - destruct (handleExecutionError_known (A := jsval) e4 h s4) as [e' [He' Hk]].
    rewrite He'. intros Heq. injection Heq as <- _. exact Hk.
Qed.

(** Every error [getAzureDevOpsAccessToken] throws is
    [AzureCliNotInstalledError], [AzureCliNotAuthenticatedError] or an
    [AzureCliExecutionError] "Failed to get access token" without exit
    code: the process error of the token command is never surfaced as
    such. *)
Theorem getAzureDevOpsAccessToken_typed_errors h s e s' :
  getAzureDevOpsAccessToken h s = (Throw e, s') ->
  e = AzureCliNotInstalledError \/ e = AzureCliNotAuthenticatedError \/
  exists stderr, e = AzureCliExecutionError "Failed to get access token" stderr JUndefined.
Proof.
  unfold getAzureDevOpsAccessToken, execAsync. monad_simpl.
  destruct (exec h (spawned s) accessTokenCommand) as [out err|pe]; simpl;
    [discriminate|].
  unfold handleAccessTokenError. monad_simpl.
  rewrite isInstalled_spec. destruct (exec _ _ "az --version"); simpl;
    [|intros Heq; injection Heq as <- _; left; reflexivity].
  rewrite isAuthenticated_spec. destruct (exec _ _ "az account show"); simpl;
    intros Heq; injection Heq as <- _; [right; right; eexists; reflexivity|].
  right; left; reflexivity.
Qed.

(** A run that exits successfully but whose [stderr] names a missing
    resource ("not found" or "does not exist"), with no unconfigured
    organization and no "@me" identity failure in it, fails with the
    [AzureCliExecutionError] "Resource not found" carrying that [stderr]
    and no exit code; [stdout] is ignored and nothing more is spawned. *)
Theorem executeAzCommand_not_found h s s1 s2 s3 (command stdout stderr : string) :
  validateAzureCliIsInstalled h s = (Ok tt, s1) ->
  validateUserIsAuthenticated h s1 = (Ok tt, s2) ->
  validateDevOpsExtensionForDevOpsCommands command h s2 = (Ok tt, s3) ->
  exec h (spawned s3) command = Resolved stdout stderr ->
  isOrganizationNotConfiguredError stderr = false ->
  isResourceNotFoundError stderr = true ->
  includes stderr atMeFailure = false ->
  executeAzCommand command h s =
    (Throw (AzureCliExecutionError "Resource not found" stderr JUndefined),
     set_spawned s3 (spawned s3 ++ [command])).
Proof.
  intros H1 H2 H3 He Horg Hnf Hme.
  assert (Ht : str_truthy stderr = true).
  { unfold isResourceNotFoundError in Hnf. apply orb_prop in Hnf.
    destruct Hnf as [Hi|Hi]; eapply includes_nonempty; try exact Hi; discriminate. }
  unfold executeAzCommand. monad_simpl. rewrite H1, H2, H3.
  unfold executeOnce. monad_simpl. rewrite (execAsync_resolved _ _ _ _ _ He). simpl.
  unfold handleStderrErrors. rewrite Ht, Horg, Hnf. simpl.
  unfold errorText. simpl. rewrite (str_or_truthy _ _ Ht), str_or_empty, Hme.
  reflexivity.
Qed.

(** A run that exits successfully with a clean [stderr] but a non-blank
    [stdout] that is not JSON fails with an [AzureCliExecutionError] whose
    message is "Azure CLI command failed: " followed by the [SyntaxError]
    message, and whose [stderr] field holds that message too (or
    "Unknown error" when it is empty), not the process's [stderr]; there is
    no exit code.  This holds when that message does not itself contain
    the "@me" identity failure, which would start the retry. *)
Theorem executeAzCommand_invalid_json h s s1 s2 s3 (command stdout stderr m : string) :
  validateAzureCliIsInstalled h s = (Ok tt, s1) ->
  validateUserIsAuthenticated h s1 = (Ok tt, s2) ->
  validateDevOpsExtensionForDevOpsCommands command h s2 = (Ok tt, s3) ->
  exec h (spawned s3) command = Resolved stdout stderr ->
  isOrganizationNotConfiguredError stderr = false ->
  isResourceNotFoundError stderr = false ->
  trim stdout <> "" -> json_parse stdout = inr m ->
  includes m atMeFailure = false ->
  executeAzCommand command h s =
    (Throw (AzureCliExecutionError ("Azure CLI command failed: " ++ m)
              (str_or m "Unknown error") JUndefined),
     set_spawned s3 (spawned s3 ++ [command])).
Proof.
  intros H1 H2 H3 He Horg Hnf Hne Hp Hme.
  unfold executeAzCommand. monad_simpl. rewrite H1, H2, H3.
  unfold executeOnce. monad_simpl. rewrite (execAsync_resolved _ _ _ _ _ He). simpl.
  assert (Hs : handleStderrErrors stderr h (set_spawned s3 (spawned s3 ++ [command])) =
               (Ok tt, set_spawned s3 (spawned s3 ++ [command]))).
  { unfold handleStderrErrors. rewrite Horg, Hnf.
    destruct (negb (str_truthy stderr)); reflexivity. }
  rewrite Hs. simpl.
  unfold parseJsonResponse, JSON_parse. apply str_truthy_iff in Hne. rewrite Hne, Hp.
  simpl. unfold errorText. simpl. rewrite str_or_nil, str_or_empty, Hme.
  unfold handleExecutionError. simpl. rewrite str_or_nil. reflexivity.
Qed.

Lemma identity_retry_run h s s1 s2 s3 (command : string) pe :
  validateAzureCliIsInstalled h s = (Ok tt, s1) ->
  validateUserIsAuthenticated h s1 = (Ok tt, s2) ->
  validateDevOpsExtensionForDevOpsCommands command h s2 = (Ok tt, s3) ->
  exec h (spawned s3) command = Rejected pe ->
  includes (str_or (pe_stderr pe) (pe_message pe)) atMeFailure = true ->
  executeAzCommand command h s =
    catch (executeOnce (replace_at_me command (configuredUsername h))) handleExecutionError
      h (set_spawned s3 (spawned s3 ++ [command])).
Proof.
  intros H1 H2 H3 He Hme.
  unfold executeAzCommand. monad_simpl. rewrite H1, H2, H3.
  unfold executeOnce at 1. monad_simpl. rewrite (execAsync_rejected _ _ _ _ He).
  cbv iota beta. unfold errorText. cbn [err_stderr err_message].
  rewrite str_or_empty, Hme.
  unfold ensureConfiguredUsername. monad_simpl. reflexivity.
Qed.

Lemma executeOnce_handled_state (c : string) h s :
  snd (catch (executeOnce c) handleExecutionError h s) = set_spawned s (spawned s ++ [c]).
Proof.
  unfold executeOnce, execAsync, handleStderrErrors, parseJsonResponse, JSON_parse,
    handleExecutionError.
  monad_simpl.
  destruct (exec h (spawned s) c) as [out err|pe]; cbv iota beta; cbn [fst snd];
    repeat first
      [ match goal with
        | |- context [if ?b then _ else _] => destruct b
        | |- context [match json_parse ?o with _ => _ end] => destruct (json_parse o)
        end
      | reflexivity ].
Qed.

(** When the first attempt fails with the "@me" identity error,
    [executeAzCommand] spawns the rewritten command (every "@me" replaced
    by the configured username) right after the command, whatever happens
    next, and spawns nothing else; the outcome is that of this one retry:
    a rejected retry gives the generic execution error (no further retry,
    even on a second identity error); a retry that exits successfully
    gives the organization error or "Resource not found" on such a
    [stderr], and otherwise [{}] for a blank [stdout], the parsed value
    for JSON, and the generic error wrapping the [SyntaxError] message for
    anything else. *)
Theorem executeAzCommand_identity_retry h s s1 s2 s3 (command : string) pe :
  validateAzureCliIsInstalled h s = (Ok tt, s1) ->
  validateUserIsAuthenticated h s1 = (Ok tt, s2) ->
  validateDevOpsExtensionForDevOpsCommands command h s2 = (Ok tt, s3) ->
  exec h (spawned s3) command = Rejected pe ->
  includes (str_or (pe_stderr pe) (pe_message pe)) atMeFailure = true ->
  let newCommand := replace_at_me command (configuredUsername h) in
  let hist := (spawned s3 ++ [command])%list in
  snd (executeAzCommand command h s) =
    set_spawned s3 (spawned s3 ++ [command; newCommand]) /\
  (forall pe2, exec h hist newCommand = Rejected pe2 ->
     fst (executeAzCommand command h s) =
       Throw (AzureCliExecutionError ("Azure CLI command failed: " ++ pe_message pe2)
                (str_or (str_or (pe_stderr pe2) (pe_message pe2)) "Unknown error")
                (pe_code pe2))) /\
  (forall out err, exec h hist newCommand = Resolved out err ->
     (isOrganizationNotConfiguredError err = true ->
      fst (executeAzCommand command h s) = Throw AzureDevOpsNotConfiguredError) /\
     (isOrganizationNotConfiguredError err = false -> isResourceNotFoundError err = true ->
      fst (executeAzCommand command h s) =
        Throw (AzureCliExecutionError "Resource not found" err JUndefined)) /\
     (isOrganizationNotConfiguredError err = false -> isResourceNotFoundError err = false ->
      (trim out = "" -> fst (executeAzCommand command h s) = Ok (JObj [])) /\
      (trim out <> "" -> forall v, json_parse out = inl v ->
         fst (executeAzCommand command h s) = Ok v) /\
      (trim out <> "" -> forall m, json_parse out = inr m ->
         fst (executeAzCommand command h s) =
           Throw (AzureCliExecutionError ("Azure CLI command failed: " ++ m)
                    (str_or m "Unknown error") JUndefined)))).
Proof.
  intros H1 H2 H3 He Hme newCommand hist.
  rewrite (identity_retry_run h s s1 s2 s3 command pe H1 H2 H3 He Hme).
  fold newCommand.
  split; [|split].
  - rewrite executeOnce_handled_state. cbn [spawned set_spawned].
    rewrite <- app_assoc. reflexivity.
  - intros pe2 He2. unfold executeOnce. monad_simpl.
    rewrite (execAsync_rejected _ _ h (set_spawned s3 (spawned s3 ++ [command])) He2).
    reflexivity.
  - intros out err He2. unfold executeOnce. monad_simpl.
    rewrite (execAsync_resolved _ _ _ h (set_spawned s3 (spawned s3 ++ [command])) He2).
    cbv iota beta. cbn [fst snd]. unfold handleStderrErrors.
    split; [|split].
    + intros Horg.
      assert (Ht : str_truthy err = true)
        by (destruct err; [discriminate Horg|reflexivity]).
      rewrite Ht, Horg. reflexivity.
    + intros Horg Hnf.
      assert (Ht : str_truthy err = true)
        by (destruct err; [discriminate Hnf|reflexivity]).
      rewrite Ht, Horg, Hnf. reflexivity.
    + intros Horg Hnf. rewrite Horg, Hnf.
      unfold parseJsonResponse, JSON_parse.
      split; [|split].
      * intros Hb. destruct (negb (str_truthy err)); cbv iota beta;
          rewrite Hb; reflexivity.
      * intros Hne v Hp. apply str_truthy_iff in Hne.
        destruct (negb (str_truthy err)); cbv iota beta; rewrite Hne, Hp; reflexivity.
      * intros Hne m Hp. apply str_truthy_iff in Hne.
        destruct (negb (str_truthy err)); cbv iota beta; rewrite Hne, Hp;
          cbn; try rewrite str_or_nil; reflexivity.
Qed.

Lemma replace_at_me_from_no_match (orig repl : string) (pos : nat) (s : string) :
  includes s "@me" = false -> replace_at_me_from orig repl pos 0 s = s.
Proof.
  revert pos. induction s as [|c r IH]; intros pos H; [reflexivity|].
  cbn [includes] in H. cbn [replace_at_me_from].
  destruct (String.prefix "@me" (String c r)); [discriminate|].
  rewrite IH; [reflexivity|exact H].
Qed.

Lemma prefix_at_me (s : string) :
  String.prefix "@me" s = true -> exists r, s = "@me" ++ r.
Proof.
  intros H.
  destruct s as [|a s]; [discriminate|]. cbn [String.prefix] in H.
  destruct (ascii_dec "@" a); [subst a|discriminate].
  destruct s as [|b s]; [discriminate|]. cbn [String.prefix] in H.
  destruct (ascii_dec "m" b); [subst b|discriminate].
  destruct s as [|c r]; [discriminate|]. cbn [String.prefix] in H.
  destruct (ascii_dec "e" c); [subst c|discriminate].
  exists r. reflexivity.
Qed.

Lemma replace_at_me_from_self (orig : string) (n pos : nat) (s : string) :
  String.length s <= n -> replace_at_me_from orig "@me" pos 0 s = s.
Proof.
  revert pos s. induction n as [|n IH]; intros pos s Hl.
  - destruct s; [reflexivity|simpl in Hl; lia].
  - destruct s as [|c r]; [reflexivity|].
    destruct (String.prefix "@me" (String c r)) eqn:P.
    + destruct (prefix_at_me _ P) as [r' E]. rewrite E. simpl.
      rewrite E in Hl. simpl in Hl. rewrite IH; [|lia].
      destruct (String.prefix "" r'); reflexivity.
    + cbn [replace_at_me_from]. rewrite P. simpl in Hl. rewrite IH; [reflexivity|lia].
Qed.

(** The "@me" rewrite of the retry leaves a command without "@me"
    unchanged, whatever the username; and with the fallback username "@me"
    it leaves every command unchanged. *)
Theorem replace_at_me_identity (command username : string) :
  (includes command "@me" = false -> replace_at_me command username = command) /\
  replace_at_me command "@me" = command.
Proof.
  unfold replace_at_me. split.
  - apply replace_at_me_from_no_match.
  - apply (replace_at_me_from_self command (String.length command)). lia.
Qed.

(** ** Extra properties of [AuthenticationService] *)

(** Once [getAccessToken] has produced a token, the context reports it
    together with a source read from the environment alone (wherever the
    token came from, the cache included): [EnvironmentPat] when
    [AZURE_DEVOPS_EXT_PAT] is non-blank, else [EnvironmentToken] when
    [AZ_ACCESS_TOKEN] is non-blank, with no subscription and no further
    spawn; else [AzureCli], with the result of [getSubscriptionInfo]. *)
Theorem getAuthenticationContext_source h s t s1 :
  getAccessToken h s = (Ok t, s1) ->
  (forall v, env h primaryEnvVar = Some v -> trim v <> "" ->
     getAuthenticationContext h s =
       (Ok {| ctx_accessToken := t; ctx_subscription := None;
              ctx_source := EnvironmentPat |}, s1)) /\
  (forall v, env_blank h primaryEnvVar ->
     env h secondaryEnvVar = Some v -> trim v <> "" ->
     getAuthenticationContext h s =
       (Ok {| ctx_accessToken := t; ctx_subscription := None;
              ctx_source := EnvironmentToken |}, s1)) /\
  (env_blank h primaryEnvVar -> env_blank h secondaryEnvVar ->
     forall i s2, getSubscriptionInfo h s1 = (Ok i, s2) ->
     getAuthenticationContext h s =
       (Ok {| ctx_accessToken := t; ctx_subscription := i;
              ctx_source := AzureCli |}, s2)).
Proof.
  intros Hg. unfold getAuthenticationContext. monad_simpl. rewrite Hg.
  cbv iota beta. split; [|split].
  - intros v He Hne. rewrite (getEnvVar_present _ _ _ _ He Hne). cbv iota beta.
    destruct (getEnvVar_cases secondaryEnvVar h s1) as [E|[t2 [E _]]];
      rewrite E; reflexivity.
  - intros v Hb He Hne. rewrite (getEnvVar_blank _ _ _ Hb). cbv iota beta.
    rewrite (getEnvVar_present _ _ _ _ He Hne). reflexivity.
  - intros Hb1 Hb2 i s2 Hs.
    rewrite (getEnvVar_blank _ _ _ Hb1). cbv iota beta.
    rewrite (getEnvVar_blank _ _ _ Hb2). cbv iota beta.
    rewrite Hs. reflexivity.
Qed.

Lemma getSubscriptionInfo_miss h s :
  cachedSubscription s = None ->
  (exists rest, spawned (snd (getSubscriptionInfo h s)) =
                (spawned s ++ "az --version" :: rest)%list) /\
  (fst (getSubscriptionInfo h s) = Ok None ->
   cachedSubscription (snd (getSubscriptionInfo h s)) = None) /\
  (forall i, fst (getSubscriptionInfo h s) = Ok (Some i) ->
   cachedSubscription (snd (getSubscriptionInfo h s)) = Some i).
Proof.
  intros Hc. unfold getSubscriptionInfo. monad_simpl. rewrite Hc.
  rewrite isInstalled_spec.
  destruct (exec h (spawned s) "az --version"); simpl;
    [|split; [exists []; reflexivity|split; [intros _; exact Hc|discriminate]]].
  rewrite isAuthenticated_spec.
  destruct (exec h _ "az account show"); simpl;
    [|split; [exists ["az account show"]; rewrite <- app_assoc; reflexivity
             |split; [intros _; exact Hc|discriminate]]].
  set (s2 := set_spawned (set_spawned s _) _).
  destruct (os_executeAzCommand subscriptionCommand h s2) as [l Hl].
  destruct (executeAzCommand subscriptionCommand h s2) as [[v|e] s3]; simpl in Hl;
    subst s3; simpl.
  2:{ split; [exists ("az account show" :: l); unfold s2; simpl;
              rewrite <- !app_assoc; reflexivity
             |split; [intros _; exact Hc|discriminate]]. }
  assert (Hsp : exists rest, spawned (set_spawned s2 (spawned s2 ++ l)) =
                             (spawned s ++ "az --version" :: rest)%list).
  { exists ("az account show" :: l). unfold s2. simpl. rewrite <- !app_assoc.
    reflexivity. }
  destruct (negb (truthy v) || negb (is_object v)); simpl;
    [split; [exact Hsp|split; [intros _; exact Hc|discriminate]]|].
  destruct (negb (truthy (get v "id")) || negb (truthy (get v "name"))); simpl;
    [split; [exact Hsp|split; [intros _; exact Hc|discriminate]]|].
  repeat match goal with
         | |- context [match js_String ?x with Ok _ => _ | Throw _ => _ end] =>
             destruct (js_String x); simpl;
               [|split; [exact Hsp|split; [intros _; exact Hc|discriminate]]]
         end.
  split; [exact Hsp|split; [discriminate|]].
  intros i Hi. injection Hi as <-. reflexivity.
Qed.

(** The subscription cache: a cached value is returned as is, with no
    spawn; a present result is always cached; an absent result is never
    cached, so the next call probes again; and after [clearCache] the next
    lookup starts with the install probe, whatever was cached. *)
Theorem getSubscriptionInfo_cache h s :
  (forall i, cachedSubscription s = Some i -> getSubscriptionInfo h s = (Ok (Some i), s)) /\
  (forall i s', getSubscriptionInfo h s = (Ok (Some i), s') ->
     cachedSubscription s' = Some i) /\
  (forall s', cachedSubscription s = None -> getSubscriptionInfo h s = (Ok None, s') ->
     cachedSubscription s' = None) /\
  (exists rest, spawned (snd (getSubscriptionInfo h (snd (clearCache h s)))) =
                (spawned s ++ "az --version" :: rest)%list).
Proof.
  split; [|split; [|split]].
  - intros i Hc. unfold getSubscriptionInfo. monad_simpl. rewrite Hc. reflexivity.
  - intros i s' E. destruct (cachedSubscription s) as [i0|] eqn:Hc.
    + unfold getSubscriptionInfo in E. monad_simpl. rewrite Hc in E.
      injection E as <- <-. exact Hc.
    + destruct (getSubscriptionInfo_miss h s Hc) as [_ [_ H]].
      rewrite E in H. exact (H i eq_refl).
  - intros s' Hc E. destruct (getSubscriptionInfo_miss h s Hc) as [_ [H _]].
    rewrite E in H. exact (H eq_refl).
  - exact (proj1 (getSubscriptionInfo_miss h (snd (clearCache h s)) eq_refl)).
Qed.

(** ** Extra properties of [MyPRsService] *)

Lemma clean_stderr (stderr : string) h s :
  isOrganizationNotConfiguredError stderr = false ->
  isResourceNotFoundError stderr = false ->
  handleStderrErrors stderr h s = (Ok tt, s).
Proof.
  intros Horg Hnf. unfold handleStderrErrors. rewrite Horg, Hnf.
  destruct (negb (str_truthy stderr)); reflexivity.
Qed.

(** When the created-PR listing exits successfully with a clean [stderr]
    and an empty or whitespace-only [stdout], [fetchMyCreatedPRs] resolves
    to the empty object [{}] (the blank-output value of [executeAzCommand],
    which is truthy), not to an array; merging that value with the review
    PRs in [deduplicatePRs] then throws a [TypeError], whatever the review
    PRs are. *)
Theorem fetchMyCreatedPRs_blank_output h s s1 s2 s3 options (stdout stderr : string) :
  let command := buildCreatedPRsCommand (buildFilterArgs (buildFilters options)) in
  validateAzureCliIsInstalled h s = (Ok tt, s1) ->
  validateUserIsAuthenticated h s1 = (Ok tt, s2) ->
  validateDevOpsExtensionForDevOpsCommands command h s2 = (Ok tt, s3) ->
  exec h (spawned s3) command = Resolved stdout stderr ->
  isOrganizationNotConfiguredError stderr = false ->
  isResourceNotFoundError stderr = false ->
  trim stdout = "" ->
  fst (fetchMyCreatedPRs options h s) = Ok (JObj []) /\
  (forall reviewPRs, exists msg,
     deduplicatePRs [JObj []; reviewPRs] = Throw (TypeError msg)).
Proof.
  intros command H1 H2 H3 He Horg Hnf Hb. split; [|intros r; eexists; reflexivity].
  assert (Hx : exists s4, executeAzCommand command h s = (Ok (JObj []), s4)).
  { unfold executeAzCommand. monad_simpl. rewrite H1, H2, H3.
    unfold executeOnce. monad_simpl. rewrite (execAsync_resolved _ _ _ _ _ He).
    cbv iota beta. cbn [fst snd]. rewrite (clean_stderr _ _ _ Horg Hnf).
    cbv iota beta. unfold parseJsonResponse. rewrite Hb. eexists. reflexivity. }
  destruct Hx as [s4 Hx].
  unfold fetchMyCreatedPRs. fold command. monad_simpl. rewrite Hx. reflexivity.
Qed.

Lemma reviewers_some_true (rs : list jsval) (userId : jsval) :
  reviewers_some rs userId = Ok true ->
  exists r, In r rs /\ strict_equals (get r "id") userId = true.
Proof.
  induction rs as [|r rest IH]; simpl; [discriminate|].
  intros H. destruct r;
    try discriminate;
    (destruct (strict_equals (get _ "id") userId) eqn:E;
     [eexists; split; [left; reflexivity|exact E]
     |destruct (IH H) as [r' [Hin Hr]]; exists r'; split; [right; exact Hin|exact Hr]]).
Qed.

Lemma userIsReviewer_true (pr userId : jsval) :
  userIsReviewer pr userId = Ok true ->
  exists rs r, get pr "reviewers" = JArr rs /\ In r rs /\
               strict_equals (get r "id") userId = true.
Proof.
  intros H.
  assert (Hg : exists rs, get pr "reviewers" = JArr rs /\
                          reviewers_some rs userId = Ok true).
  { unfold userIsReviewer in H.
    destruct pr; try discriminate;
      destruct (get _ "reviewers"); try discriminate; eexists; split; eauto. }
  destruct Hg as [rs [Hrs Hs]].
  destruct (reviewers_some_true _ _ Hs) as [r [Hin Hr]].
  exists rs, r. auto.
Qed.

Lemma filter_reviewed_sound (l : list jsval) (userId : jsval) kept :
  filter_reviewed l userId = Ok kept ->
  Forall (fun pr => In pr l /\
                    exists rs r, get pr "reviewers" = JArr rs /\ In r rs /\
                                 strict_equals (get r "id") userId = true) kept.
Proof.
  revert kept. induction l as [|pr r IH]; simpl; intros kept H.
  - injection H as <-. constructor.
  - destruct (userIsReviewer pr userId) as [b|e] eqn:Eu; [|discriminate].
    destruct (filter_reviewed r userId) as [rest|e]; [|discriminate].
    specialize (IH rest eq_refl).
    assert (IH' : Forall (fun q => In q (pr :: r) /\
                    exists rs r0, get q "reviewers" = JArr rs /\ In r0 rs /\
                                  strict_equals (get r0 "id") userId = true) rest).
    { eapply Forall_impl; [|exact IH]. intros q [Hin Hq]. split; [right; exact Hin|exact Hq]. }
    injection H as <-. destruct b; [|exact IH'].
    constructor; [|exact IH'].
    split; [left; reflexivity|]. apply userIsReviewer_true. exact Eu.
Qed.

(** [fetchMyReviewPRs] always resolves to an array.  It is empty, or the
    listing command returned an array [all], the user id lookup returned
    [uid], and each returned PR is an element of [all] with a reviewer
    whose [id] is strictly equal to [uid]. *)
Theorem fetchMyReviewPRs_array h s options :
  let command := buildAllPRsCommand (buildFilterArgs (buildFilters options)) in
  exists l s', fetchMyReviewPRs options h s = (Ok (JArr l), s') /\
    (l = [] \/
     exists all s1 uid,
       executeAzCommand command h s = (Ok (JArr all), s1) /\
       fst (executeAzCommand currentUserCommand h s1) = Ok uid /\
       Forall (fun pr => In pr all /\
                 exists rs r, get pr "reviewers" = JArr rs /\ In r rs /\
                              strict_equals (get r "id") uid = true) l).
Proof.
  intros command. unfold fetchMyReviewPRs. fold command. monad_simpl.
  destruct (executeAzCommand command h s) as [[v|e] s1] eqn:E1;
    [|do 2 eexists; split; [reflexivity|left; reflexivity]].
  destruct (negb (truthy v) || length_is_zero v);
    [do 2 eexists; split; [reflexivity|left; reflexivity]|].
  unfold getCurrentUserId.
  destruct (executeAzCommand currentUserCommand h s1) as [[uid|e] s2] eqn:E2;
    [|do 2 eexists; split; [reflexivity|left; reflexivity]].
  destruct (filterPRsByReviewer v uid) as [w|e] eqn:Ef;
    [|do 2 eexists; split; [reflexivity|left; reflexivity]].
  unfold filterPRsByReviewer in Ef.
  destruct v; try discriminate Ef.
  destruct (filter_reviewed elems uid) as [kept|e] eqn:Ek; [|discriminate Ef].
  injection Ef as <-.
  exists kept, s2. split; [reflexivity|]. right.
  exists elems, s1, uid. split; [reflexivity|]. split; [rewrite E2; reflexivity|].
  apply filter_reviewed_sound. exact Ek.
Qed.

Definition pr_entry (pr : jsval) : jsval * jsval := (pr_key pr, pr).

Lemma keys_distinct_snoc (ps : list jsval) (p : jsval) :
  keys_distinct ps = true ->
  (forall q, In q ps -> same_value_zero (pr_key q) (pr_key p) = false) ->
  keys_distinct (ps ++ [p]) = true.
Proof.
  induction ps as [|a ps IH]; intros Hd Hq; [reflexivity|].
  simpl in Hd |- *. apply andb_prop in Hd. destruct Hd as [Ha Hd].
  rewrite forallb_app, Ha, IH; [|exact Hd|intros q Hin; apply Hq; right; exact Hin].
  simpl. rewrite (Hq a (or_introl eq_refl)). reflexivity.
Qed.

Lemma keys_distinct_before (ps r : list jsval) (p q : jsval) :
  keys_distinct (ps ++ p :: r) = true -> In q ps ->
  same_value_zero (pr_key q) (pr_key p) = false.
Proof.
  induction ps as [|a ps IH]; simpl; [tauto|].
  intros Hd Hin. apply andb_prop in Hd. destruct Hd as [Ha Hd].
  destruct Hin as [<-|Hin]; [|exact (IH Hd Hin)].
  rewrite forallb_forall in Ha.
  specialize (Ha p (in_or_app ps (p :: r) p (or_intror (in_eq p r)))).
  apply negb_true_iff in Ha. exact Ha.
Qed.

Lemma keys_distinct_app_r (ps r : list jsval) :
  keys_distinct (ps ++ r) = true -> keys_distinct r = true.
Proof.
  induction ps as [|a ps IH]; simpl; [tauto|].
  intros Hd. apply andb_prop in Hd. exact (IH (proj2 Hd)).
Qed.

Lemma existsb_entries_false (ps : list jsval) (k : jsval) :
  (forall q, In q ps -> same_value_zero (pr_key q) k = false) ->
  existsb (fun kv => same_value_zero (fst kv) k) (map pr_entry ps) = false.
Proof.
  intros H. destruct (existsb _ _) eqn:E; [|reflexivity].
  apply existsb_exists in E. destruct E as [kv [Hin Hf]].
  apply in_map_iff in Hin. destruct Hin as [q [<- Hq]].
  simpl in Hf. rewrite (H q Hq) in Hf. discriminate.
Qed.

Lemma existsb_entries_false_inv (ps : list jsval) (k : jsval) :
  existsb (fun kv => same_value_zero (fst kv) k) (map pr_entry ps) = false ->
  forall q, In q ps -> same_value_zero (pr_key q) k = false.
Proof.
  intros H q Hq. destruct (same_value_zero (pr_key q) k) eqn:E; [|reflexivity].
  rewrite <- H. symmetry. apply existsb_exists.
  exists (pr_entry q). split; [apply in_map; exact Hq|exact E].
Qed.

Lemma existsb_entries_true (ps : list jsval) (k : jsval) :
  existsb (fun kv => same_value_zero (fst kv) k) (map pr_entry ps) = true ->
  exists q, In q ps /\ same_value_zero (pr_key q) k = true.
Proof.
  intros H. apply existsb_exists in H. destruct H as [kv [Hin Hf]].
  apply in_map_iff in Hin. destruct Hin as [q [<- Hq]]. exists q. split; assumption.
Qed.

Lemma dedup_list_cons (m : list (jsval * jsval)) (p : jsval) (r : list jsval) :
  no_missing [p] = true ->
  dedup_list m (p :: r) =
    if existsb (fun kv => same_value_zero (fst kv) (pr_key p)) m
    then dedup_list m r else dedup_list (app m [(pr_key p, p)]) r.
Proof. intros H. destruct p; try discriminate H; reflexivity. Qed.

Lemma map_pr_entry_snoc (ps : list jsval) (p : jsval) :
  app (map pr_entry ps) [(pr_key p, p)] = map pr_entry (app ps [p]).
Proof. rewrite map_app. reflexivity. Qed.

Lemma dedup_list_distinct (ps l : list jsval) :
  no_missing l = true -> keys_distinct (app ps l) = true ->
  dedup_list (map pr_entry ps) l = Ok (map pr_entry (app ps l)).
Proof.
  revert ps. induction l as [|p r IH]; intros ps Hn Hd.
  - rewrite app_nil_r. reflexivity.
  - simpl in Hn. apply andb_prop in Hn. destruct Hn as [Hp Hn].
    rewrite dedup_list_cons by (simpl; rewrite Hp; reflexivity).
    rewrite existsb_entries_false
      by (intros q Hin; exact (keys_distinct_before ps r p q Hd Hin)).
    rewrite map_pr_entry_snoc, IH; [|exact Hn|rewrite <- app_assoc; exact Hd].
    rewrite <- app_assoc. reflexivity.
Qed.

Lemma dedup_list_ok (ps l : list jsval) :
  no_missing l = true -> keys_distinct ps = true ->
  exists ps', dedup_list (map pr_entry ps) l = Ok (map pr_entry (app ps ps')) /\
    keys_distinct (app ps ps') = true /\ incl ps' l /\
    (forall p, In p l -> In p ps' \/
       exists q, In q (app ps ps') /\ same_value_zero (pr_key q) (pr_key p) = true).
Proof.
  revert ps. induction l as [|p r IH]; intros ps Hn Hd.
  - exists []. rewrite app_nil_r. split; [reflexivity|]. split; [exact Hd|].
    split; [intros x []|intros x []].
  - simpl in Hn. apply andb_prop in Hn. destruct Hn as [Hp Hn].
    rewrite dedup_list_cons by (simpl; rewrite Hp; reflexivity).
    destruct (existsb _ (map pr_entry ps)) eqn:Ex.
    + destruct (IH ps Hn Hd) as [ps' [E [Hd' [Hinc Hcov]]]].
      exists ps'. split; [exact E|]. split; [exact Hd'|].
      split; [apply incl_tl; exact Hinc|].
      intros p0 [<-|Hin]; [|exact (Hcov p0 Hin)].
      right. destruct (existsb_entries_true ps _ Ex) as [q [Hq Hs]].
      exists q. split; [apply in_or_app; left; exact Hq|exact Hs].
    + pose proof (existsb_entries_false_inv ps _ Ex) as Hnot.
      destruct (IH (app ps [p]) Hn (keys_distinct_snoc ps p Hd Hnot))
        as [ps' [E [Hd' [Hinc Hcov]]]].
      exists (p :: ps'). rewrite map_pr_entry_snoc, E, <- app_assoc.
      rewrite <- app_assoc in Hd'. split; [reflexivity|]. split; [exact Hd'|].
      split.
      * intros x [<-|Hx]; [left; reflexivity|right; exact (Hinc x Hx)].
      * intros p0 [<-|Hin]; [left; left; reflexivity|].
        destruct (Hcov p0 Hin) as [H|[q [Hq Hs]]]; [left; right; exact H|].
        right. exists q. rewrite <- app_assoc in Hq. split; [exact Hq|exact Hs].
Qed.

(** Merging the created and the review PRs ([deduplicatePRs] as
    [fetchAndMergePRsFromAllRoles] calls it, on two arrays without [null] entries): when the
    created PRs have pairwise distinct [pullRequestId]s, all of them come
    first, in order, followed by review PRs only; no two PRs of the result
    share a [pullRequestId] (under SameValueZero); and every review PR is
    in the result or shares its [pullRequestId] with a PR of the result
    (the first occurrence wins). *)
Theorem deduplicatePRs_merge (l1 l2 : list jsval) :
  no_missing l1 = true -> no_missing l2 = true -> keys_distinct l1 = true ->
  exists rest,
    deduplicatePRs [JArr l1; JArr l2] = Ok (JArr (app l1 rest)) /\
    keys_distinct (app l1 rest) = true /\ incl rest l2 /\
    (forall p, In p l2 -> In p rest \/
       exists q, In q (app l1 rest) /\ same_value_zero (pr_key q) (pr_key p) = true).
Proof.
  intros H1 H2 Hd.
  pose proof (dedup_list_distinct [] l1 H1 Hd) as E1. cbn [map app] in E1.
  destruct (dedup_list_ok l1 l2 H2 Hd) as [rest [E2 [Hd2 [Hinc Hcov]]]].
  exists rest. unfold deduplicatePRs. cbn [dedup_lists js_iter].
  rewrite E1. cbn [dedup_lists js_iter]. rewrite E2. cbn [dedup_lists].
  rewrite map_map. unfold pr_entry. cbn [snd]. rewrite map_id.
  split; [reflexivity|]. split; [exact Hd2|]. split; [exact Hinc|exact Hcov].
Qed.

(** Without the azure-devops extension, once both probes pass, the PR
    listings never run: [fetchMyCreatedPRs] and [fetchMyReviewPRs] both
    resolve to the empty array after spawning only the three probes, since
    both listing commands are DevOps commands. *)
Theorem fetchMyPRs_extension_required h s options out1 err1 out2 err2 s3 :
  exec h (spawned s) "az --version" = Resolved out1 err1 ->
  exec h (spawned s ++ ["az --version"]) "az account show" = Resolved out2 err2 ->
  hasDevOpsExtension h (set_spawned s (spawned s ++ ["az --version"; "az account show"])) =
    (Ok false, s3) ->
  fetchMyCreatedPRs options h s = (Ok (JArr []), s3) /\
  fetchMyReviewPRs options h s = (Ok (JArr []), s3) /\
  spawned s3 = (spawned s ++ ["az --version"; "az account show";
                              "az extension list --output json"])%list.
Proof.
  intros He Ha Hx.
  assert (Hc : isDevOpsCommand
                 (buildCreatedPRsCommand (buildFilterArgs (buildFilters options))) = true)
    by reflexivity.
  assert (Hr : isDevOpsCommand
                 (buildAllPRsCommand (buildFilterArgs (buildFilters options))) = true)
    by reflexivity.
  destruct (extension_missing_run _ _ _ _ _ _ _ _ He Ha Hc Hx) as [E1 Hs].
  destruct (extension_missing_run _ _ _ _ _ _ _ _ He Ha Hr Hx) as [E2 _].
  unfold fetchMyCreatedPRs, fetchMyReviewPRs. cbv zeta. monad_simpl.
  rewrite E1, E2. split; [reflexivity|]. split; [reflexivity|exact Hs].
Qed.

(** ** Filters and the reviewer check *)

Lemma string_app_assoc (a b c : string) : ((a ++ b) ++ c)%string = (a ++ b ++ c)%string.
Proof. induction a as [|ch a IH]; simpl; [reflexivity|rewrite IH; reflexivity]. Qed.

Lemma string_app_nil_r (a : string) : (a ++ "")%string = a.
Proof. induction a as [|ch a IH]; simpl; [reflexivity|rewrite IH; reflexivity]. Qed.

Lemma join_space_in (x : string) (l : list string) :
  In x l -> exists pre post, join_space l = (pre ++ x ++ post)%string.
Proof.
  induction l as [|a r IH]; [intros []|].
  intros [<-|Hin].
  - destruct r as [|b r].
    + exists "", "". simpl. rewrite string_app_nil_r. reflexivity.
    + exists "", (" " ++ join_space (b :: r))%string. reflexivity.
  - destruct (IH Hin) as [pre [post E]].
    destruct r as [|b r]; [destruct Hin|].
    exists (a ++ " " ++ pre)%string, post.
    change (join_space (a :: b :: r)) with (a ++ " " ++ join_space (b :: r))%string.
    rewrite E, !string_app_assoc. reflexivity.
Qed.

Lemma in_snoc_if (b : bool) (l : list string) (x y : string) :
  In x l -> In x (if b then app l [y] else l).
Proof. intros H. destruct b; [apply in_or_app; left|]; exact H. Qed.

(** The filter arguments: with status [""] or ["all"], no non-empty
    project or repository and a falsy [top], there are none, and the two
    listings read [az repos pr list --creator @me  --output json] and
    [az repos pr list  --output json] (an empty argument string between
    two spaces). A non-empty project or repository is spliced verbatim
    between double quotes, with no escaping of the quote character. *)
Theorem buildFilterArgs_shape (options : MyPRsOptions) :
  ((opt_status options = "" \/ opt_status options = "all") ->
   (opt_project options = None \/ opt_project options = Some "") ->
   (opt_repo options = None \/ opt_repo options = Some "") ->
   truthy (JNum (opt_top options)) = false ->
   buildFilterArgs (buildFilters options) = "" /\
   buildCreatedPRsCommand (buildFilterArgs (buildFilters options)) =
     "az repos pr list --creator @me  --output json" /\
   buildAllPRsCommand (buildFilterArgs (buildFilters options)) =
     "az repos pr list  --output json") /\
  (forall p, opt_project options = Some p -> str_truthy p = true ->
     exists pre post, buildFilterArgs (buildFilters options) =
       (pre ++ "--project " ++ dq ++ p ++ dq ++ post)%string) /\
  (forall r, opt_repo options = Some r -> str_truthy r = true ->
     exists pre post, buildFilterArgs (buildFilters options) =
       (pre ++ "--repository " ++ dq ++ r ++ dq ++ post)%string).
Proof.
  destruct options as [st repo proj top]; cbn [opt_status opt_project opt_repo opt_top].
  unfold buildFilterArgs, buildFilters;
    cbn [flt_status flt_project flt_repositoryId flt_top opt_status opt_project opt_repo opt_top].
  split; [|split].
  - intros Hs Hp Hr Ht. rewrite Ht.
    assert (E : join_space
                  (if str_truthy st && negb (st =? "all")%string
                   then ["--status " ++ st]%string else []) = "").
    { destruct Hs as [->| ->]; reflexivity. }
    destruct Hp as [->| ->]; destruct Hr as [->| ->]; cbn [keep_truthy str_truthy];
      rewrite E; repeat split.
  - intros p -> Hp. cbn [keep_truthy]. rewrite !Hp.
    match goal with |- exists _ _, join_space ?l = _ =>
      assert (Hin : In ("--project " ++ dq ++ p ++ dq)%string l) end.
    { apply in_snoc_if.
      destruct (keep_truthy repo) as [r|]; [destruct (str_truthy r)|];
        rewrite ?in_app_iff; cbn [In]; tauto. }
    destruct (join_space_in _ _ Hin) as [pre [post E]].
    exists pre, post. rewrite E, !string_app_assoc. reflexivity.
  - intros r -> Hr. cbn [keep_truthy]. rewrite !Hr.
    match goal with |- exists _ _, join_space ?l = _ =>
      assert (Hin : In ("--repository " ++ dq ++ r ++ dq)%string l) end.
    { apply in_snoc_if. rewrite ?in_app_iff; cbn [In]; tauto. }
    destruct (join_space_in _ _ Hin) as [pre [post E]].
    exists pre, post. rewrite E, !string_app_assoc. reflexivity.
Qed.

Lemma filter_reviewed_throws (all : list jsval) (uid pr : jsval) (e0 : jserr) :
  In pr all -> userIsReviewer pr uid = Throw e0 ->
  exists e, filter_reviewed all uid = Throw e.
Proof.
  induction all as [|a r IH]; [intros []|].
  intros [<-|Hin] Hu; cbn [filter_reviewed].
  - rewrite Hu. exists e0. reflexivity.
  - destruct (userIsReviewer a uid) as [b|e]; [|exists e; reflexivity].
    destruct (IH Hin Hu) as [e He]. rewrite He. exists e. reflexivity.
Qed.

(** One malformed PR spoils the whole review listing: when the listing
    returns a non-empty array and the user id is read, but the reviewer
    check of some PR throws (a [null] PR, a [reviewers] field that is not
    an array, a [null] reviewer before a match), the [filter] throws, the
    catch block swallows it and [fetchMyReviewPRs] resolves to the empty
    array, dropping the PRs the user does review. *)
Theorem fetchMyReviewPRs_malformed_pr h s s1 s2 options all uid pr e0 :
  let command := buildAllPRsCommand (buildFilterArgs (buildFilters options)) in
  executeAzCommand command h s = (Ok (JArr all), s1) ->
  all <> [] ->
  executeAzCommand currentUserCommand h s1 = (Ok uid, s2) ->
  In pr all -> userIsReviewer pr uid = Throw e0 ->
  fetchMyReviewPRs options h s = (Ok (JArr []), s2).
Proof.
  intros command E1 Hne E2 Hin Hu.
  destruct (filter_reviewed_throws all uid pr e0 Hin Hu) as [e He].
  unfold fetchMyReviewPRs, getCurrentUserId, filterPRsByReviewer. cbv zeta. fold command.
  monad_simpl. rewrite E1.
  destruct all as [|x rest]; [congruence|]. cbn [truthy length_is_zero negb orb].
  rewrite E2, He. reflexivity.
Qed.

End Runtime.

(** ** Concrete runs *)

(** A fresh service: nothing spawned, both cache slots empty. *)
Definition fresh : State :=
  {| spawned := []; cachedToken := None; cachedSubscription := None |}.

Definition at_log (l : list string) : State :=
  {| spawned := l; cachedToken := None; cachedSubscription := None |}.

(** A stand-in for [JSON.parse] on the few texts the runs below print. *)
Definition demo_parse (text : string) : jsval + string :=
  if String.eqb text "[ext]" then inl (JArr [JObj [("name", JStr "azure-devops")]])
  else if String.eqb text "{account}" then
    inl (JObj [("id", JStr "sub-1"); ("name", JStr "Dev");
               ("homeTenantId", JStr "tenant-9")])
  else inr "Unexpected token".

Definition demo_num (f : float) : string := "0".

Definition exit1 (stderr message : string) : exec_outcome :=
  Rejected {| pe_stderr := stderr; pe_message := message; pe_code := JNum 1%float |}.

(** [az group list] exits with code 1 and an organization error. *)
Definition host_org : Host :=
  {| env := fun _ => None;
     exec := fun _ c =>
       if String.eqb c "az group list"
       then exit1 "ERROR: organization is not configured" "Command failed: az group list"
       else Resolved "" "";
     configuredUsername := "@me" |}.

Definition me_command : string := "az repos pr list --creator @me --output json".

(** The "@me" command always fails to resolve the identity; the username
    source falls back to "@me". *)
Definition host_me : Host :=
  {| env := fun _ => None;
     exec := fun _ c =>
       if String.eqb c me_command
       then exit1 "ERROR: Could not resolve identity: @me" "Command failed"
       else if String.eqb c "az extension list --output json" then Resolved "[ext]" ""
       else Resolved "" "";
     configuredUsername := "@me" |}.

(** Every command succeeds; the token command prints a token. *)
Definition host_ok : Host :=
  {| env := fun _ => None;
     exec := fun _ c =>
       if String.eqb c accessTokenCommand then Resolved "tok-123
" ""
       else if String.eqb c subscriptionCommand then Resolved "{account}" ""
       else if String.eqb c "az group list" then Resolved "  
 " ""
       else Resolved "" "";
     configuredUsername := "@me" |}.

(** The primary variable holds a padded token. *)
Definition host_pat : Host :=
  {| env := fun n => if String.eqb n primaryEnvVar then Some "  secret-token  " else None;
     exec := exec host_ok;
     configuredUsername := "@me" |}.

(** Nothing is installed: every command fails. *)
Definition host_none : Host :=
  {| env := fun _ => None;
     exec := fun _ c => exit1 ("az: command not found: " ++ c) "Command failed";
     configuredUsername := "@me" |}.

(** The install probe passes, the login probe fails. *)
Definition host_noauth : Host :=
  {| env := fun _ => None;
     exec := fun _ c =>
       if String.eqb c "az account show"
       then exit1 "ERROR: Please run az login to setup account." "Command failed"
       else Resolved "" "";
     configuredUsername := "@me" |}.

(** Every command resolves with empty output: in particular the extension
    list does not parse, so the azure-devops extension counts as missing. *)
Definition host_bare : Host :=
  {| env := fun _ => None;
     exec := fun _ _ => Resolved "" "";
     configuredUsername := "@me" |}.

(** The extension is installed and every other command prints nothing. *)
Definition host_blank : Host :=
  {| env := fun _ => None;
     exec := fun _ c =>
       if String.eqb c "az extension list --output json" then Resolved "[ext]" ""
       else Resolved "" "";
     configuredUsername := "@me" |}.

Definition alice_command : string :=
  "az repos pr list --creator alice@example.com --output json".

(** "@me" cannot be resolved, but a username is configured and the
    rewritten command succeeds. *)
Definition host_retry : Host :=
  {| env := fun _ => None;
     exec := fun _ c =>
       if String.eqb c me_command
       then exit1 "ERROR: Could not resolve identity: @me" "Command failed"
       else if String.eqb c "az extension list --output json" then Resolved "[ext]" ""
       else if String.eqb c alice_command then Resolved "[ext]" ""
       else Resolved "" "";
     configuredUsername := "alice@example.com" |}.

(** A lookup of a missing resource group, and a command printing text that
    is not JSON. *)
Definition host_misc : Host :=
  {| env := fun _ => None;
     exec := fun _ c =>
       if String.eqb c "az group show --name x"
       then Resolved "" "ERROR: resource group not found"
       else if String.eqb c "az vm list" then Resolved "garbage" ""
       else Resolved "" "";
     configuredUsername := "@me" |}.

Definition probes3 : list string :=
  ["az --version"; "az account show"; "az extension list --output json"].

Definition options0 : MyPRsOptions :=
  {| opt_status := "active"; opt_repo := None; opt_project := None; opt_top := 0%float |}.

Definition sub0 : SubscriptionInfo :=
  {| sub_id := "sub-1"; sub_name := "Dev"; sub_tenantId := "tenant-9";
     sub_state := "Enabled" |}.

Definition pr1 : jsval := JObj [("pullRequestId", JNum 1%float); ("title", JStr "a")].
Definition pr1' : jsval := JObj [("pullRequestId", JNum 1%float); ("title", JStr "b")].
Definition pr2 : jsval := JObj [("pullRequestId", JNum 2%float); ("title", JStr "c")].

Definition all_prs_command : string := "az repos pr list --status active --output json".

(** PR 7 is reviewed by user u1; PR 8 has no [reviewers] field. *)
Definition prA : jsval :=
  JObj [("pullRequestId", JNum 7%float); ("reviewers", JArr [JObj [("id", JStr "u1")]])].
Definition prB : jsval := JObj [("pullRequestId", JNum 8%float)].

(** An account whose [id] is an object with its own [toString] key. *)
Definition weird_account : jsval :=
  JObj [("id", JObj [("toString", JNum 1%float)]); ("name", JStr "Dev")].

(** The account command prints [weird_account]. *)
Definition host_weird : Host :=
  {| env := fun _ => None;
     exec := fun _ c =>
       if String.eqb c subscriptionCommand then Resolved "{weird}" "" else Resolved "" "";
     configuredUsername := "@me" |}.

(** The extension list is empty. *)
Definition host_noext : Host :=
  {| env := fun _ => None;
     exec := fun _ c =>
       if String.eqb c "az extension list --output json" then Resolved "[]" ""
       else Resolved "" "";
     configuredUsername := "@me" |}.

(** [demo_parse], plus the PR listing, the user id, the account and the
    empty extension list printed below. *)
Definition demo_parse2 (text : string) : jsval + string :=
  if String.eqb text "[prs]" then inl (JArr [prA; prB])
  else if String.eqb text "u1" then inl (JStr "u1")
  else if String.eqb text "{weird}" then inl weird_account
  else if String.eqb text "[]" then inl (JArr [])
  else demo_parse text.

(** The extension is installed, the PR listing prints PRs 7 and 8, the
    signed-in user is u1. *)
Definition host_review : Host :=
  {| env := fun _ => None;
     exec := fun _ c =>
       if String.eqb c "az extension list --output json" then Resolved "[ext]" ""
       else if String.eqb c all_prs_command then Resolved "[prs]" ""
       else if String.eqb c currentUserCommand then Resolved "u1" ""
       else Resolved "" "";
     configuredUsername := "@me" |}.

Definition options_all : MyPRsOptions :=
  {| opt_status := "all"; opt_repo := None; opt_project := None; opt_top := 0%float |}.

(** A project name holding a double quote. *)
Definition options_quoted : MyPRsOptions :=
  {| opt_status := "all"; opt_repo := None; opt_project := Some ("a" ++ dq ++ "b")%string;
     opt_top := 0%float |}.

(** ** Witnesses and counterexamples *)

(** C1 refuted: a rejected command whose [stderr] names the unconfigured
    organization does not give [AzureDevOpsNotConfiguredError]. *)
Lemma executeAzCommand_not_configured_counterexample :
  exec host_org [] "az group list" =
    exit1 "ERROR: organization is not configured" "Command failed: az group list" /\
  isOrganizationNotConfiguredError "ERROR: organization is not configured" = true /\
  fst (executeAzCommand demo_parse "az group list" host_org fresh)
    <> Throw AzureDevOpsNotConfiguredError.
Proof. split; [reflexivity|]. split; [reflexivity|]. vm_compute. discriminate. Qed.

Lemma executeAzCommand_not_configured_witness :
  fst (executeAzCommand demo_parse "az group list" host_org fresh) =
    Throw (AzureCliExecutionError "Azure CLI command failed: Command failed: az group list"
             "ERROR: organization is not configured" (JNum 1%float)).
Proof.
  apply (proj2 (executeAzCommand_not_configured demo_parse host_org fresh
                  (at_log ["az --version"]) (at_log ["az --version"; "az account show"])
                  (at_log ["az --version"; "az account show"]) "az group list"
                  eq_refl eq_refl eq_refl)
           {| pe_stderr := "ERROR: organization is not configured";
              pe_message := "Command failed: az group list"; pe_code := JNum 1%float |});
    reflexivity.
Defined.

(** C2 refuted: after an identity failure the very same command line is
    spawned a second time (the username source fell back to "@me"). *)
Lemma command_spawns_counterexample :
  count_occ string_dec (spawned (snd (executeAzCommand demo_parse me_command host_me fresh)))
    me_command = 2.
Proof. vm_compute. reflexivity. Qed.

Lemma command_spawns_witness :
  spawned (snd (executeAzCommand demo_parse me_command host_me fresh)) =
    ["az --version"; "az account show"; "az extension list --output json";
     me_command; me_command].
Proof.
  rewrite (proj1 (command_spawns demo_parse host_me fresh)
             (at_log ["az --version"]) (at_log ["az --version"; "az account show"])
             (at_log ["az --version"; "az account show"; "az extension list --output json"])
             me_command eq_refl eq_refl eq_refl).
  vm_compute. reflexivity.
Defined.

(** C3: with nothing installed, the subscription lookup still resolves. *)
Lemma getSubscriptionInfo_never_raises_witness :
  exists r s', getSubscriptionInfo demo_parse demo_num host_none fresh = (Ok r, s').
Proof.
  destruct (getSubscriptionInfo_never_raises demo_parse demo_num host_none fresh)
    as [r [s' [E _]]].
  exists r, s'. exact E.
Defined.

(** C4: the padded primary variable is trimmed, cached and returned without
    any spawn. *)
Lemma getAccessToken_priority_witness :
  getAccessToken host_pat fresh =
    (Ok "secret-token", set_cachedToken fresh (Some "secret-token")).
Proof.
  refine (eq_trans (proj1 (getAccessToken_priority host_pat fresh eq_refl)
                      "  secret-token  " eq_refl _) _);
    [vm_compute; discriminate | reflexivity].
Defined.

(** C5: two calls, one spawn. *)
Lemma getAccessToken_cache_lifecycle_witness :
  fst (getAccessToken host_ok (snd (getAccessToken host_ok fresh))) =
    fst (getAccessToken host_ok fresh) /\
  spawned (snd (getAccessToken host_ok fresh)) = [accessTokenCommand].
Proof.
  assert (Hwork : forall hist, exists out err,
            exec host_ok hist accessTokenCommand = Resolved out err /\ trim out <> "").
  { intros hist. exists "tok-123
", "". split; [reflexivity|]. vm_compute. discriminate. }
  destruct (getAccessToken_cache_lifecycle host_ok fresh
              (fst (getAccessToken host_ok fresh)) (snd (getAccessToken host_ok fresh))
              (fst (getAccessToken host_ok (snd (getAccessToken host_ok fresh))))
              (snd (getAccessToken host_ok (snd (getAccessToken host_ok fresh))))
              eq_refl I I Hwork (surjective_pairing _) (surjective_pairing _))
    as [_ [E2 [E3 _]]].
  split; [exact E2|exact E3].
Defined.

(** C6: the token command fails and the install probe fails too. *)
Lemma getAzureDevOpsAccessToken_diagnosis_witness :
  fst (getAzureDevOpsAccessToken host_none fresh) = Throw AzureCliNotInstalledError.
Proof.
  apply (proj1 (getAzureDevOpsAccessToken_diagnosis host_none fresh
                  {| pe_stderr := "az: command not found: " ++ accessTokenCommand;
                     pe_message := "Command failed"; pe_code := JNum 1%float |} eq_refl)
           (at_log [accessTokenCommand; "az --version"])).
  reflexivity.
Defined.

(** C7: [homeTenantId] stands in for the missing [tenantId], and the
    missing [state] reads "Unknown"; an [id] object with its own
    [toString] key makes [String(id)] throw, and the lookup gives absent. *)
Lemma getSubscriptionInfo_fields_witness :
  fst (getSubscriptionInfo demo_parse demo_num host_ok fresh) =
    Ok (Some {| sub_id := "sub-1"; sub_name := "Dev"; sub_tenantId := "tenant-9";
                sub_state := "Unknown" |}) /\
  fst (getSubscriptionInfo demo_parse2 demo_num host_weird fresh) = Ok None.
Proof.
  split.
  - exact (proj1 (proj2 (proj2
             (getSubscriptionInfo_fields demo_parse demo_num host_ok fresh
                (at_log ["az --version"]) (at_log ["az --version"; "az account show"])
                (at_log ["az --version"; "az account show"; "az --version";
                         "az account show"; subscriptionCommand])
                (JObj [("id", JStr "sub-1"); ("name", JStr "Dev");
                       ("homeTenantId", JStr "tenant-9")])
                eq_refl eq_refl eq_refl eq_refl)))
             eq_refl eq_refl eq_refl eq_refl "sub-1" "Dev" "tenant-9" "Unknown"
             eq_refl eq_refl eq_refl eq_refl).
  - exact (proj2 (proj2 (proj2
             (getSubscriptionInfo_fields demo_parse2 demo_num host_weird fresh
                (at_log ["az --version"]) (at_log ["az --version"; "az account show"])
                (at_log ["az --version"; "az account show"; "az --version";
                         "az account show"; subscriptionCommand])
                weird_account eq_refl eq_refl eq_refl eq_refl)))
             (TypeError "Cannot convert object to primitive value")
             (or_introl eq_refl)).
Defined.

(** C8: a whitespace-only [stdout] gives the empty object. *)
Lemma executeAzCommand_parses_stdout_witness :
  fst (executeAzCommand demo_parse "az group list" host_ok fresh) = Ok (JObj []).
Proof.
  apply (proj1 (executeAzCommand_parses_stdout demo_parse host_ok fresh
                  (at_log ["az --version"]) (at_log ["az --version"; "az account show"])
                  (at_log ["az --version"; "az account show"]) "az group list"
                  "  
 " "" eq_refl eq_refl eq_refl eq_refl eq_refl eq_refl)).
  reflexivity.
Defined.

(** C9: with nothing installed the resolution fails with the message that
    names both variables. *)
Lemma getAccessToken_failure_witness :
  match fst (getAccessToken host_none fresh) with
  | Throw e => includes (err_message e) primaryEnvVar = true /\
               includes (err_message e) secondaryEnvVar = true
  | Ok _ => False
  end.
Proof.
  destruct (getAccessToken host_none fresh) as [[t|e] s'] eqn:E; simpl.
  - vm_compute in E. discriminate E.
  - destruct (getAccessToken_failure _ _ _ _ E) as [_ [H1 [H2 _]]].
    split; [exact H1|exact H2].
Defined.

(** C10: after resolving the padded primary variable the slot is valid. *)
Lemma token_cache_invariant_witness :
  cache_ok (snd (getAccessToken host_pat fresh)).
Proof.
  exact (proj1 (token_cache_invariant demo_parse demo_num host_pat _
                  (reach_getAccessToken _ _ _ _ (reach_init _ _ _ [])))).
Defined.

(** Extra: without a login the probes stop the command after two spawns. *)
Lemma executeAzCommand_probe_failures_witness :
  executeAzCommand demo_parse "az group list" host_noauth fresh =
    (Throw AzureCliNotAuthenticatedError, at_log ["az --version"; "az account show"]).
Proof.
  exact (proj2 (executeAzCommand_probe_failures demo_parse host_noauth fresh "az group list")
           "" "" {| pe_stderr := "ERROR: Please run az login to setup account.";
                    pe_message := "Command failed"; pe_code := JNum 1%float |}
           eq_refl eq_refl).
Defined.

(** Extra: a DevOps command without the extension. *)
Lemma executeAzCommand_extension_gate_witness :
  executeAzCommand demo_parse me_command host_bare fresh =
    (Throw AzureDevOpsExtensionNotInstalledError, at_log probes3).
Proof.
  exact (proj1 (proj1 (executeAzCommand_extension_gate demo_parse host_bare fresh me_command
                         "" "" "" "" eq_refl eq_refl) eq_refl (at_log probes3) eq_refl)).
Defined.

(** Extra: the extension list names azure-devops in its first entry; an
    empty extension list gives [false]. *)
Lemma hasDevOpsExtension_result_witness :
  hasDevOpsExtension demo_parse host_blank fresh =
    (Ok true, at_log ["az extension list --output json"]) /\
  hasDevOpsExtension demo_parse2 host_noext fresh =
    (Ok false, at_log ["az extension list --output json"]).
Proof.
  split.
  - pose proof (hasDevOpsExtension_result demo_parse host_blank fresh) as H.
    destruct H as [_ [_ [_ [_ [_ H]]]]].
    exact (proj1 (H "[ext]" "" [] (JObj [("name", JStr "azure-devops")]) []
                    eq_refl eq_refl eq_refl) eq_refl).
  - pose proof (hasDevOpsExtension_result demo_parse2 host_noext fresh) as H.
    destruct H as [_ [_ [_ [_ [H _]]]]].
    exact (H "[]" "" [] eq_refl eq_refl eq_refl).
Defined.

(** Extra: the login failure is one of the typed errors. *)
Lemma executeAzCommand_typed_errors_witness :
  executeAzCommand demo_parse "az group list" host_noauth fresh =
    (Throw AzureCliNotAuthenticatedError, at_log ["az --version"; "az account show"]) /\
  isKnownError AzureCliNotAuthenticatedError = true.
Proof.
  split; [reflexivity|].
  exact (executeAzCommand_typed_errors demo_parse "az group list" host_noauth fresh
           AzureCliNotAuthenticatedError (at_log ["az --version"; "az account show"]) eq_refl).
Defined.

(** Extra: with nothing installed the token command fails as not installed. *)
Lemma getAzureDevOpsAccessToken_typed_errors_witness :
  getAzureDevOpsAccessToken host_none fresh =
    (Throw AzureCliNotInstalledError, at_log [accessTokenCommand; "az --version"]) /\
  (AzureCliNotInstalledError = AzureCliNotInstalledError \/
   AzureCliNotInstalledError = AzureCliNotAuthenticatedError \/
   exists stderr, AzureCliNotInstalledError =
     AzureCliExecutionError "Failed to get access token" stderr JUndefined).
Proof.
  split; [reflexivity|].
  exact (getAzureDevOpsAccessToken_typed_errors host_none fresh AzureCliNotInstalledError
           (at_log [accessTokenCommand; "az --version"]) eq_refl).
Defined.

(** Extra: a missing resource group. *)
Lemma executeAzCommand_not_found_witness :
  executeAzCommand demo_parse "az group show --name x" host_misc fresh =
    (Throw (AzureCliExecutionError "Resource not found" "ERROR: resource group not found"
              JUndefined),
     at_log ["az --version"; "az account show"; "az group show --name x"]).
Proof.
  exact (executeAzCommand_not_found demo_parse host_misc fresh (at_log ["az --version"])
           (at_log ["az --version"; "az account show"])
           (at_log ["az --version"; "az account show"]) "az group show --name x"
           "" "ERROR: resource group not found"
           eq_refl eq_refl eq_refl eq_refl eq_refl eq_refl eq_refl).
Defined.

(** Extra: output that is not JSON. *)
Lemma executeAzCommand_invalid_json_witness :
  executeAzCommand demo_parse "az vm list" host_misc fresh =
    (Throw (AzureCliExecutionError "Azure CLI command failed: Unexpected token"
              "Unexpected token" JUndefined),
     at_log ["az --version"; "az account show"; "az vm list"]).
Proof.
  refine (executeAzCommand_invalid_json demo_parse host_misc fresh (at_log ["az --version"])
            (at_log ["az --version"; "az account show"])
            (at_log ["az --version"; "az account show"]) "az vm list"
            "garbage" "" "Unexpected token"
            eq_refl eq_refl eq_refl eq_refl eq_refl eq_refl _ eq_refl eq_refl).
  vm_compute. discriminate.
Defined.

(** Extra: the "@me" command is retried once with the configured username;
    with the username source falling back to "@me", the same line fails a
    second time and the generic error ends the run. *)
Lemma executeAzCommand_identity_retry_witness :
  executeAzCommand demo_parse me_command host_retry fresh =
    (Ok (JArr [JObj [("name", JStr "azure-devops")]]),
     at_log (probes3 ++ [me_command; alice_command])) /\
  executeAzCommand demo_parse me_command host_me fresh =
    (Throw (AzureCliExecutionError "Azure CLI command failed: Command failed"
              "ERROR: Could not resolve identity: @me" (JNum 1%float)),
     at_log (probes3 ++ [me_command; me_command])).
Proof.
  split.
  - destruct (executeAzCommand_identity_retry demo_parse host_retry fresh
                (at_log ["az --version"]) (at_log ["az --version"; "az account show"])
                (at_log probes3) me_command
                {| pe_stderr := "ERROR: Could not resolve identity: @me";
                   pe_message := "Command failed"; pe_code := JNum 1%float |}
                eq_refl eq_refl eq_refl eq_refl eq_refl) as [Hsnd [_ Hres]].
    destruct (Hres "[ext]" "" eq_refl) as [_ [_ Hclean]].
    destruct (Hclean eq_refl eq_refl) as [_ [Hv _]].
    rewrite (surjective_pairing (executeAzCommand _ _ _ _)), Hsnd.
    rewrite (Hv ltac:(vm_compute; discriminate) _ eq_refl). reflexivity.
  - destruct (executeAzCommand_identity_retry demo_parse host_me fresh
                (at_log ["az --version"]) (at_log ["az --version"; "az account show"])
                (at_log probes3) me_command
                {| pe_stderr := "ERROR: Could not resolve identity: @me";
                   pe_message := "Command failed"; pe_code := JNum 1%float |}
                eq_refl eq_refl eq_refl eq_refl eq_refl) as [Hsnd [Hrej _]].
    rewrite (surjective_pairing (executeAzCommand _ _ _ _)), Hsnd.
    rewrite (Hrej {| pe_stderr := "ERROR: Could not resolve identity: @me";
                     pe_message := "Command failed"; pe_code := JNum 1%float |} eq_refl).
    reflexivity.
Defined.

(** Extra: a command without "@me" is left unchanged. *)
Lemma replace_at_me_identity_witness :
  replace_at_me "az group list" "alice@example.com" = "az group list".
Proof.
  exact (proj1 (replace_at_me_identity "az group list" "alice@example.com") eq_refl).
Defined.

(** Extra: the padded primary variable makes the context a PAT context. *)
Lemma getAuthenticationContext_source_witness :
  getAuthenticationContext demo_parse demo_num host_pat fresh =
    (Ok {| ctx_accessToken := "secret-token"; ctx_subscription := None;
           ctx_source := EnvironmentPat |},
     set_cachedToken fresh (Some "secret-token")).
Proof.
  refine (proj1 (getAuthenticationContext_source demo_parse demo_num host_pat fresh
                   "secret-token" (set_cachedToken fresh (Some "secret-token")) eq_refl)
            "  secret-token  " eq_refl _).
  vm_compute. discriminate.
Defined.

(** Extra: a cached subscription is returned even with nothing installed. *)
Lemma getSubscriptionInfo_cache_witness :
  getSubscriptionInfo demo_parse demo_num host_none
    {| spawned := []; cachedToken := None; cachedSubscription := Some sub0 |} =
    (Ok (Some sub0), {| spawned := []; cachedToken := None; cachedSubscription := Some sub0 |}).
Proof.
  exact (proj1 (getSubscriptionInfo_cache demo_parse demo_num host_none
                  {| spawned := []; cachedToken := None; cachedSubscription := Some sub0 |})
           sub0 eq_refl).
Defined.

(** Extra: blank output of the created-PRs listing. *)
Lemma fetchMyCreatedPRs_blank_output_witness :
  fst (fetchMyCreatedPRs demo_parse demo_num options0 host_blank fresh) = Ok (JObj []) /\
  exists msg, deduplicatePRs [JObj []; JArr []] = Throw (TypeError msg).
Proof.
  destruct (fetchMyCreatedPRs_blank_output demo_parse demo_num host_blank fresh
              (at_log ["az --version"]) (at_log ["az --version"; "az account show"])
              (at_log probes3) options0 "" ""
              eq_refl eq_refl eq_refl eq_refl eq_refl eq_refl eq_refl) as [H1 H2].
  split; [exact H1|exact (H2 (JArr []))].
Defined.

(** Extra: the review listing on a host that prints nothing. *)
Lemma fetchMyReviewPRs_array_witness :
  exists l s', fetchMyReviewPRs demo_parse demo_num options0 host_blank fresh = (Ok (JArr l), s').
Proof.
  destruct (fetchMyReviewPRs_array demo_parse demo_num host_blank fresh options0)
    as [l [s' [E _]]].
  exists l, s'. exact E.
Defined.

(** Extra: PR 1 appears in both lists; its created copy is kept. *)
Lemma deduplicatePRs_merge_witness :
  exists rest, deduplicatePRs [JArr [pr1]; JArr [pr1'; pr2]] = Ok (JArr ([pr1] ++ rest)) /\
    incl rest [pr1'; pr2].
Proof.
  destruct (deduplicatePRs_merge [pr1] [pr1'; pr2] eq_refl eq_refl eq_refl)
    as [rest [E [_ [I _]]]].
  exists rest. split; [exact E|exact I].
Defined.

(** Extra: no extension, no PR listing. *)
Lemma fetchMyPRs_extension_required_witness :
  fetchMyCreatedPRs demo_parse demo_num options0 host_bare fresh = (Ok (JArr []), at_log probes3) /\
  fetchMyReviewPRs demo_parse demo_num options0 host_bare fresh = (Ok (JArr []), at_log probes3).
Proof.
  destruct (fetchMyPRs_extension_required demo_parse demo_num host_bare fresh options0
              "" "" "" "" (at_log probes3) eq_refl eq_refl eq_refl) as [A [B _]].
  split; [exact A|exact B].
Defined.

(** Extra: no filters; and a quote in the project name is not escaped. *)
Lemma buildFilterArgs_shape_witness :
  buildCreatedPRsCommand (buildFilterArgs demo_num (buildFilters options_all)) =
    "az repos pr list --creator @me  --output json" /\
  exists pre post, buildFilterArgs demo_num (buildFilters options_quoted) =
    (pre ++ "--project " ++ dq ++ ("a" ++ dq ++ "b") ++ dq ++ post)%string.
Proof.
  split.
  - refine (proj1 (proj2 (proj1 (buildFilterArgs_shape demo_parse demo_num options_all) _ _ _ _)));
      [right; reflexivity|left; reflexivity|left; reflexivity|reflexivity].
  - exact (proj1 (proj2 (buildFilterArgs_shape demo_parse demo_num options_quoted))
             ("a" ++ dq ++ "b")%string eq_refl eq_refl).
Defined.

(** Extra: PR 8 lacks [reviewers], so PR 7, which u1 reviews, is lost too. *)
Lemma fetchMyReviewPRs_malformed_pr_witness :
  fetchMyReviewPRs demo_parse2 demo_num options0 host_review fresh =
    (Ok (JArr []),
     at_log (probes3 ++ [all_prs_command; "az --version"; "az account show";
                         currentUserCommand])).
Proof.
  refine (fetchMyReviewPRs_malformed_pr demo_parse2 demo_num host_review fresh
            (at_log (probes3 ++ [all_prs_command]))
            (at_log (probes3 ++ [all_prs_command; "az --version"; "az account show";
                                 currentUserCommand]))
            options0 [prA; prB] (JStr "u1") prB (TypeError "pr.reviewers.some is not a function")
            eq_refl _ eq_refl (or_intror (or_introl eq_refl)) eq_refl).
  discriminate.
Defined.
